(** * Year-wise sheet ingestion of GHG_Emissions_Prediction.ipynb

    A shallow embedding of the ingestion loop (notebook cell 464213c7) and of
    the cells that follow it, together with the pandas operations the loop
    calls: [read_excel], column assignment, [columns.str.strip], [rename] and
    [concat]. *)

From Stdlib Require Import ZArith List Bool Lia.
From Stdlib Require Import Ascii String DecimalString.
From Stdlib Require DecimalPos DecimalZ.
Import ListNotations.

Local Open Scope string_scope.
Local Open Scope Z_scope.
Local Open Scope list_scope.

(** ** Data model *)

(** A column label.  A character is a code point below 256, which is what an
    [ascii] holds. *)
Definition label := string.

(** A value stored in a table: text, an integer of an int64 column, a
    float given by its exact decimal value [m * 10^e], or the missing value
    (itself a float).  pandas keeps one type per column: a column of integers
    only is int64, a numeric column holding a float or a missing value is
    float64, a column holding text is of type object and keeps every value
    as it is. *)
Inductive cell : Type :=
  | Str (s : string)
  | Int (z : Z)
  | Float (m e : Z)
  | NaN.

(** A pandas DataFrame with the default row index [0 .. n-1]: the column
    labels in order and the rows in order, each row holding one cell per
    column.  Labels may repeat, as pandas allows. *)
Record DataFrame : Type := mkDataFrame {
  columns : list label;
  rows : list (list cell)
}.

(** Every row has one cell per column: true of every table pandas builds. *)
Definition rectangular (f : DataFrame) : Prop :=
  Forall (fun r => List.length r = List.length (columns f)) (rows f).

(** The exceptions the modelled calls raise (all subclasses of Python's
    [Exception]), each with its message. *)
Inductive exn : Type :=
  | ValueError (msg : string)
  | InvalidIndexError (msg : string)
  | IndexError (msg : string).

(** [str(e)] *)
Definition exn_message (e : exn) : string :=
  match e with
  | ValueError m => m
  | InvalidIndexError m => m
  | IndexError m => m
  end.

Inductive result (A : Type) : Type :=
  | Ok (a : A)
  | Raise (e : exn).
Arguments Ok {A} a.
Arguments Raise {A} e.

Definition bind {A B : Type} (m : result A) (k : A -> result B) : result B :=
  match m with
  | Ok a => k a
  | Raise e => Raise e
  end.

Notation "x <- m ;; k" := (bind m (fun x => k))
  (at level 100, m at next level, right associativity).

Definition is_ok {A : Type} (m : result A) : bool :=
  match m with Ok _ => true | Raise _ => false end.

(** ** Strings *)

(** [str.isspace] on one character (code points below 256): tab, line feed,
    vertical tab, form feed, carriage return, the four separators 28-31,
    space, next-line (133) and no-break space (160). *)
Definition isspace (c : ascii) : bool :=
  let n := nat_of_ascii c in
  ((9 <=? n) && (n <=? 13) || (28 <=? n) && (n <=? 32)
   || (n =? 133) || (n =? 160))%nat.

Fixpoint lstrip (s : string) : string :=
  match s with
  | EmptyString => EmptyString
  | String c s' => if isspace c then lstrip s' else s
  end.

Fixpoint rstrip (s : string) : string :=
  match s with
  | EmptyString => EmptyString
  | String c s' =>
      match rstrip s' with
      | EmptyString => if isspace c then EmptyString else String c EmptyString
      | t => String c t
      end
  end.

(** [str.strip()] *)
Definition strip (s : string) : string := rstrip (lstrip s).

Definition first_char (s : string) : option ascii :=
  match s with
  | EmptyString => None
  | String c _ => Some c
  end.

Fixpoint last_char (s : string) : option ascii :=
  match s with
  | EmptyString => None
  | String c EmptyString => Some c
  | String _ s' => last_char s'
  end.

Definition space_at (o : option ascii) : bool :=
  match o with
  | Some c => isspace c
  | None => false
  end.

(** A label is padded when it starts or ends with a whitespace character. *)
Definition padded (s : string) : bool :=
  space_at (first_char s) || space_at (last_char s).

(** [str(n)] for a Python int. *)
Definition str_int (n : Z) : string :=
  NilZero.string_of_int (Z.to_int n).

(** ** pandas operations *)

Fixpoint labels_eqb (a b : list label) : bool :=
  match a, b with
  | [], [] => true
  | x :: a', y :: b' => String.eqb x y && labels_eqb a' b'
  | _, _ => false
  end.

Definition mem (c : label) (l : list label) : bool :=
  existsb (String.eqb c) l.

Fixpoint nodupb (l : list label) : bool :=
  match l with
  | [] => true
  | x :: l' => negb (mem x l') && nodupb l'
  end.

(** The value a row holds under label [c]: the cell of the first column so
    labelled, if any. *)
Fixpoint field (cols : list label) (r : list cell) (c : label) : option cell :=
  match cols, r with
  | l :: cols', x :: r' => if String.eqb l c then Some x else field cols' r' c
  | _, _ => None
  end.

(** A workbook: the table [read_excel] parses out of each sheet, by sheet
    name. *)
Definition workbook := list (string * DataFrame).

Fixpoint find_sheet (wb : workbook) (name : string) : option DataFrame :=
  match wb with
  | [] => None
  | (n, f) :: wb' => if String.eqb n name then Some f else find_sheet wb' name
  end.

(** [pd.read_excel(excel_file, sheet_name=name)] *)
Definition read_excel (excel_file : workbook) (sheet_name : string)
  : result DataFrame :=
  match find_sheet excel_file sheet_name with
  | Some f => Ok f
  | None => Raise (ValueError ("Worksheet named '" ++ sheet_name ++ "' not found")%string)
  end.

Fixpoint overwrite (cols : list label) (c : label) (v : cell) (r : list cell)
  : list cell :=
  match cols, r with
  | l :: cols', x :: r' =>
      (if String.eqb l c then v else x) :: overwrite cols' c v r'
  | _, _ => r
  end.

(** [df[c] = v] with a scalar [v]: an existing column labelled [c] is
    overwritten in every row, otherwise a new last column is added. *)
Definition setitem (c : label) (v : cell) (df : DataFrame) : DataFrame :=
  if mem c (columns df)
  then mkDataFrame (columns df) (map (overwrite (columns df) c v) (rows df))
  else mkDataFrame (columns df ++ [c]) (map (fun r => r ++ [v]) (rows df)).

(** [df.columns = df.columns.str.strip()] *)
Definition strip_columns (df : DataFrame) : DataFrame :=
  mkDataFrame (map strip (columns df)) (rows df).

Fixpoint rename_label (m : list (label * label)) (c : label) : label :=
  match m with
  | [] => c
  | (old, new) :: m' => if String.eqb old c then new else rename_label m' c
  end.

(** [df.rename(columns=m, inplace=True)] *)
Definition rename (m : list (label * label)) (df : DataFrame) : DataFrame :=
  mkDataFrame (map (rename_label m) (columns df)) (rows df).

(** Labels in order of first appearance, each once. *)
Fixpoint unique (seen l : list label) : list label :=
  match l with
  | [] => []
  | x :: l' => if mem x seen then unique seen l' else x :: unique (x :: seen) l'
  end.

Definition or_nan (o : option cell) : cell :=
  match o with
  | Some v => v
  | None => NaN
  end.

(** A row laid out again under the labels [new]; a label the row does not
    have gives the missing value. *)
Definition reindex (old new : list label) (r : list cell) : list cell :=
  map (fun c => or_nan (field old r c)) new.

(** pandas leaves a table alone when its labels already are the new ones. *)
Definition align (old new : list label) (r : list cell) : list cell :=
  if labels_eqb old new then r else reindex old new r.

Definition is_str (v : cell) : bool :=
  match v with
  | Str _ => true
  | _ => false
  end.

(** A value only a float64 column can hold. *)
Definition is_floatish (v : cell) : bool :=
  match v with
  | Float _ _ | NaN => true
  | _ => false
  end.


(** The float64 nearest to the integer [z], itself an integer: [z] below
    [2^53] in absolute value, else [z] rounded to 53 significant bits, a tie
    going to the even one. *)
Definition float_of_int (z : Z) : Z :=
  let a := Z.abs z in
  let k := Z.log2 a - 52 in
  if k <=? 0 then z
  else
    let q := Z.shiftr a k in
    let r := a - Z.shiftl q k in
    let half := Z.shiftl 1 (k - 1) in
    let q' :=
      if r <? half then q
      else if half <? r then q + 1
      else if Z.even q then q else q + 1 in
    Z.sgn z * Z.shiftl q' k.

(** A value as stored in a float64 column. *)
Definition to_float (v : cell) : cell :=
  match v with
  | Int z => Float (float_of_int z) 0
  | _ => v
  end.

Definition head_is (p : cell -> bool) (r : list cell) : bool :=
  match r with
  | x :: _ => p x
  | [] => false
  end.

(** Whether the first column of the rows [rs] comes out as float64: it
    holds no text and holds a float or a missing value.  A table without
    rows brings no cell and so has no say in the type. *)
Definition floaty_head (rs : list (list cell)) : bool :=
  negb (existsb (head_is is_str) rs) && existsb (head_is is_floatish) rs.

(** For each column, whether it comes out as float64. *)
Fixpoint upcast_flags (cols : list label) (rs : list (list cell)) : list bool :=
  match cols with
  | [] => []
  | _ :: cols' => floaty_head rs :: upcast_flags cols' (map (@tl cell) rs)
  end.

Fixpoint upcast_row (flags : list bool) (r : list cell) : list cell :=
  match flags, r with
  | b :: flags', x :: r' =>
      (if b then to_float x else x) :: upcast_row flags' r'
  | _, _ => r
  end.

(** The common type pandas gives each column of concatenated rows: in a
    column that comes out as float64 the integers become floats, every
    other value stays as it is. *)
Definition unify (cols : list label) (rs : list (list cell))
  : list (list cell) :=
  map (upcast_row (upcast_flags cols rs)) rs.

(** The rows of the tables [objs], one table after the other, laid out under
    the labels [new]. *)
Definition aligned (objs : list DataFrame) (new : list label)
  : list (list cell) :=
  flat_map (fun g => map (align (columns g) new) (rows g)) objs.

(** The column axis of a concatenation: the labels of the first table when
    all tables carry the same labels, else the union in order of first
    appearance. *)
Definition combined_columns (f : DataFrame) (fs : list DataFrame)
  : list label :=
  if forallb (fun g => labels_eqb (columns f) (columns g)) fs
  then columns f
  else unique [] (flat_map columns (f :: fs)).

Definition reindex_msg : string :=
  "Reindexing only valid with uniquely valued Index objects".

(** [pd.concat(objs, ignore_index=True)]: rows of the tables one after the
    other under the combined column axis, each column brought to one type.
    An empty list is rejected; a table whose labels differ from the combined
    axis is reindexed, which pandas refuses when the table's labels
    repeat. *)
Definition concat (objs : list DataFrame) : result DataFrame :=
  match objs with
  | [] => Raise (ValueError "No objects to concatenate")
  | f :: fs =>
      let new := combined_columns f fs in
      if forallb (fun g => labels_eqb (columns g) new || nodupb (columns g)) objs
      then Ok (mkDataFrame new (unify new (aligned objs new)))
      else Raise (InvalidIndexError reindex_msg)
  end.

(** ** The notebook *)

(** [years = [2015, 2016]] (cell 3739f73a). *)
Definition years : list Z := [2015; 2016].

(** The body of the [try] block for one year: both sheets are read, tagged
    with [Source] and [Year], their headers stripped and renamed, and the two
    tables concatenated.  Each [read_excel] call builds a fresh table, so the
    in-place updates of [df_com] and [df_ind] are seen by nobody else and are
    written as rebinding. *)
Definition ingest_year (excel_file : workbook) (year : Z) : result DataFrame :=
  df_com <- read_excel excel_file (str_int year ++ "_Detail_Commodity")%string ;;
  df_ind <- read_excel excel_file (str_int year ++ "_Detail_Industry")%string ;;
  let df_com := setitem "Source" (Str "Commodity") df_com in
  let df_ind := setitem "Source" (Str "Industry") df_ind in
  let df_com := setitem "Year" (Int year) df_com in
  let df_ind := setitem "Year" (Int year) df_ind in
  let df_com := strip_columns df_com in
  let df_ind := strip_columns df_ind in
  let df_com :=
    rename [("Commodity Code", "Code"); ("Commodity Name", "Name")] df_com in
  let df_ind :=
    rename [("Industry Code", "Code"); ("Industry Name", "Name")] df_ind in
  concat [df_com; df_ind].

(** What the loop touches: the accumulator list and standard output (one
    entry per printed line). *)
Record state : Type := mkState {
  all_data : list DataFrame;
  stdout : list string
}.

(** [f"Error processing year {year}: {e}"] *)
Definition error_line (year : Z) (e : exn) : string :=
  ("Error processing year " ++ str_int year ++ ": " ++ exn_message e)%string.

(** One iteration: [try: ... all_data.append(...) except Exception as e:
    print(...)]. *)
Definition loop_body (excel_file : workbook) (st : state) (year : Z) : state :=
  match ingest_year excel_file year with
  | Ok df => mkState (all_data st ++ [df]) (stdout st)
  | Raise e => mkState (all_data st) (stdout st ++ [error_line year e])
  end.

(** [for year in years: ...] *)
Definition ingest (excel_file : workbook) (st : state) (ys : list Z) : state :=
  fold_left (loop_body excel_file) ys st.

(** Cell 464213c7: [all_data = []] followed by the loop. *)
Definition ingestion_cell (excel_file : workbook) (ys : list Z) : state :=
  ingest excel_file (mkState [] []) ys.

(** Cell d99bcf77: [df = pd.concat(all_data, ignore_index=True)]. *)
Definition concat_cell (st : state) : result DataFrame :=
  concat (all_data st).

(** Cell 4079554d: [all_data[-1]]. *)
Definition last_entry (st : state) : result DataFrame :=
  match rev (all_data st) with
  | df :: _ => Ok df
  | [] => Raise (IndexError "list index out of range")
  end.

(** The cells after the loop run top to bottom, stopping at the first one
    that raises: [all_data[-1]], [len(all_data)], then the concatenation. *)
Definition cells_after_loop (st : state) : result DataFrame :=
  _ <- last_entry st ;;
  let _ := List.length (all_data st) in
  concat_cell st.

(** The combined table [df] of a session on workbook [excel_file]. *)
Definition combined (excel_file : workbook) (ys : list Z) : result DataFrame :=
  concat_cell (ingestion_cell excel_file ys).

(** ** Vocabulary for the statements *)

Inductive kind : Type := Commodity | Industry.

Definition kind_name (k : kind) : string :=
  match k with
  | Commodity => "Commodity"
  | Industry => "Industry"
  end.

Definition sheet_name (year : Z) (k : kind) : string :=
  (str_int year ++ "_Detail_" ++ kind_name k)%string.

(** The renaming dictionary passed to [rename] for each kind of sheet. *)
Definition renames (k : kind) : list (label * label) :=
  match k with
  | Commodity => [("Commodity Code", "Code"); ("Commodity Name", "Name")]
  | Industry => [("Industry Code", "Code"); ("Industry Name", "Name")]
  end.

(** The transformation the loop applies to one sheet before concatenating. *)
Definition normalize (k : kind) (year : Z) (df : DataFrame) : DataFrame :=
  rename (renames k)
    (strip_columns
       (setitem "Year" (Int year) (setitem "Source" (Str (kind_name k)) df))).

(** The years of [ys] whose iteration appends, in order. *)
Definition ingested (excel_file : workbook) (ys : list Z) : list Z :=
  filter (fun y => is_ok (ingest_year excel_file y)) ys.

Definition nrows (df : DataFrame) : nat := List.length (rows df).

Definition empty_table : DataFrame := mkDataFrame [] [].

(** The table read from the sheet of year [year] and kind [k] (the empty
    table stands for a sheet that cannot be read). *)
Definition sheet (excel_file : workbook) (year : Z) (k : kind) : DataFrame :=
  match read_excel excel_file (sheet_name year k) with
  | Ok df => df
  | Raise _ => empty_table
  end.

(** The entry the loop appends for [year] (the empty table stands for a year
    that is skipped). *)
Definition year_table (excel_file : workbook) (year : Z) : DataFrame :=
  match ingest_year excel_file year with
  | Ok df => df
  | Raise _ => empty_table
  end.

(** A row of the table [old] as it sits in the table [new] made by a
    concatenation: laid out under the labels of [new], with the integers of
    the columns that are float64 in [new] turned into floats. *)
Definition settle (old new : DataFrame) (r : list cell) : list cell :=
  upcast_row (upcast_flags (columns new) (rows new))
    (align (columns old) (columns new) r).

(** A normalized sheet row as it sits in the combined table [df]: taken
    into its year's entry by the per-year concatenation, then into [df] by
    the final one. *)
Definition carry (df : DataFrame) (excel_file : workbook) (year : Z) (k : kind)
  (r : list cell) : list cell :=
  settle (year_table excel_file year) df
    (settle (normalize k year (sheet excel_file year k))
       (year_table excel_file year) r).

(** The rows of one sheet in the combined table [df]. *)
Definition block (df : DataFrame) (excel_file : workbook) (year : Z) (k : kind)
  : list (list cell) :=
  map (carry df excel_file year k)
    (rows (normalize k year (sheet excel_file year k))).

(** A (year, kind) pair whose sheet [read_excel] returns. *)
Definition read_pairs (excel_file : workbook) (ys : list Z) : list (Z * kind) :=
  filter (fun p => is_ok (read_excel excel_file (sheet_name (fst p) (snd p))))
    (list_prod ys [Commodity; Industry]).

(** The sheets the loop reads for the years [ys] are rectangular and their
    labels stay pairwise distinct under the loop's tagging, stripping and
    renaming, so that every label names one column. *)
Definition tidy (excel_file : workbook) (ys : list Z) : Prop :=
  forall y k df,
    In y ys ->
    read_excel excel_file (sheet_name y k) = Ok df ->
    rectangular df /\ NoDup (columns (normalize k y df)).

(** The labels the loop itself writes or renames. *)
Definition reserved : list label :=
  ["Commodity Code"; "Commodity Name"; "Industry Code"; "Industry Name";
   "Code"; "Name"; "Source"; "Year"].

(** The header of a detail sheet of kind [k]: its code and name columns
    followed by the columns [common] shared by both kinds. *)
Definition schema (k : kind) (common : list label) : list label :=
  (kind_name k ++ " Code")%string :: (kind_name k ++ " Name")%string :: common.

(** The header both kinds are renamed to. *)
Definition unified (common : list label) : list label :=
  "Code" :: "Name" :: common.

(** The shared columns are none of the labels the loop writes or renames. *)
Definition fresh (common : list label) : Prop :=
  forallb (fun c => negb (mem c reserved)) common = true.

(** The shared columns of the sheet displayed in the notebook (output of cell
    3739f73a). *)
Definition detail_columns : list label :=
  ["Substance"; "Unit";
   "Supply Chain Emission Factors without Margins";
   "Margins of Supply Chain Emission Factors";
   "Supply Chain Emission Factors with Margins";
   "Unnamed: 7";
   "DQ ReliabilityScore of Factors without Margins";
   "DQ TemporalCorrelation of Factors without Margins";
   "DQ GeographicalCorrelation of Factors without Margins";
   "DQ TechnologicalCorrelation of Factors without Margins";
   "DQ DataCollection of Factors without Margins"].

(** ** Sample workbooks *)

(** The first row displayed in the notebook, under the displayed header. *)
Definition displayed_sheet (k : kind) : DataFrame :=
  mkDataFrame (schema k detail_columns)
    [[Str "1111A0"; Str "Fresh soybeans, canola, flaxseeds, and other oilseeds";
      Str "carbon dioxide"; Str "kg/2018 USD, purchaser price";
      Float 354 (-3); Float 63 (-3); Float 417 (-3); NaN;
      Int 3; Int 2; Int 1; Int 4; Int 1]].

Definition sample_sheet (k : kind) (code name : string) : DataFrame :=
  mkDataFrame
    [(kind_name k ++ " Code")%string; (kind_name k ++ " Name ")%string;
     "Substance"; " Unit"]
    [[Str code; Str name; Str "carbon dioxide"; Str "kg/2018 USD"];
     [Str code; Str name; Str "methane"; Str "kg/2018 USD"]].

Definition wb_2015_2016 : workbook :=
  [("2015_Detail_Commodity", sample_sheet Commodity "1111A0" "Fresh soybeans");
   ("2015_Detail_Industry", sample_sheet Industry "1111A0" "Oilseed farming");
   ("2016_Detail_Commodity", sample_sheet Commodity "1111B0" "Fresh wheat");
   ("2016_Detail_Industry", sample_sheet Industry "1111B0" "Grain farming")].

(** Year 2013 lacks its industry sheet. *)
Definition wb_missing_2013 : workbook :=
  [("2012_Detail_Commodity", sample_sheet Commodity "1111A0" "Fresh soybeans");
   ("2012_Detail_Industry", sample_sheet Industry "1111A0" "Oilseed farming");
   ("2013_Detail_Commodity", sample_sheet Commodity "1111A0" "Fresh soybeans");
   ("2014_Detail_Commodity", sample_sheet Commodity "1111B0" "Fresh wheat");
   ("2014_Detail_Industry", sample_sheet Industry "1111B0" "Grain farming")].

(** Both sheets of 2015 are present, but the commodity sheet carries a
    "Code" column next to "Commodity Code": after the renaming two of its
    columns are labelled "Code". *)
Definition wb_clash : workbook :=
  [("2015_Detail_Commodity",
    mkDataFrame ["Commodity Code"; "Code"] [[Str "1111A0"; Str "A0"]]);
   ("2015_Detail_Industry", sample_sheet Industry "1111A0" "Oilseed farming")].

(** No sheet at all. *)
Definition wb_empty : workbook := [].

(** The combined table of the first sample workbook. *)
Definition df_2015_2016 : DataFrame :=
  Eval vm_compute in
    match combined wb_2015_2016 years with
    | Ok df => df
    | Raise _ => empty_table
    end.

(** ** The other cells of the notebook *)

(** [xls.sheet_names] *)
Definition sheet_names (excel_file : workbook) : list string :=
  map fst excel_file.

(** [pd.read_excel(path)]: without [sheet_name] the first sheet is read. *)
Definition read_first (excel_file : workbook) : result DataFrame :=
  match excel_file with
  | (_, df) :: _ => Ok df
  | [] => Raise (ValueError "Worksheet index 0 is invalid, 0 worksheets found")
  end.

(** [l[i]] for a Python list and an index [i >= 0]. *)
Definition item {A : Type} (l : list A) (i : nat) : result A :=
  match nth_error l i with
  | Some a => Ok a
  | None => Raise (IndexError "list index out of range")
  end.

(** [df.head(n)] for [n >= 0]: the first [n] rows. *)
Definition head (n : nat) (df : DataFrame) : DataFrame :=
  mkDataFrame (columns df) (firstn n (rows df)).

(** The tables bound by cells 3739f73a and b3da39b5, which run before the
    loop and outside any [try]: the first sheet is read, then [df_1] and
    [df_2] are read from the two sheets of [years[0]] and their first five
    rows displayed.  What the cells print and display is left out. *)
Definition preview_cells (excel_file : workbook) (ys : list Z)
  : result (DataFrame * DataFrame) :=
  _ <- read_first excel_file ;;
  y0 <- item ys 0 ;;
  df_1 <- read_excel excel_file (str_int y0 ++ "_Detail_Commodity")%string ;;
  let _ := head 5 df_1 in
  df_2 <- read_excel excel_file (str_int y0 ++ "_Detail_Industry")%string ;;
  let _ := head 5 df_2 in
  Ok (df_1, df_2).

Definition is_null (v : cell) : bool :=
  match v with
  | NaN => true
  | _ => false
  end.

(** [df.isnull().sum()] (last cell): for each column, in order, its label
    and the number of rows whose cell in that column is missing. *)
Definition isnull_sum (df : DataFrame) : list (label * nat) :=
  map (fun jc =>
         (snd jc,
          List.length (filter (fun r => is_null (nth (fst jc) r NaN)) (rows df))))
    (combine (seq 0 (List.length (columns df))) (columns df)).

(** ** More vocabulary *)

(** The lines the loop prints for the years [ys], in order. *)
Definition printed (excel_file : workbook) (ys : list Z) : list string :=
  flat_map (fun y =>
              match ingest_year excel_file y with
              | Ok _ => []
              | Raise e => [error_line y e]
              end) ys.

Fixpoint all_space (s : string) : bool :=
  match s with
  | EmptyString => true
  | String c s' => isspace c && all_space s'
  end.

Fixpoint has_char (a : ascii) (s : string) : bool :=
  match s with
  | EmptyString => false
  | String c s' => Ascii.eqb c a || has_char a s'
  end.




(** The first sample workbook behind the front sheets of the real file. *)
Definition wb_with_cover : workbook :=
  ("Cover", mkDataFrame ["Title"] [[Str "Supply Chain Emission Factors"]])
  :: ("2016_Summary_Commodity", sample_sheet Commodity "1111A0" "Fresh soybeans")
  :: wb_2015_2016.


(** The score column holds integers in the commodity sheet and a float in
    the industry sheet. *)
Definition wb_mixed : workbook :=
  [("2015_Detail_Commodity",
    mkDataFrame ["Commodity Code"; "Commodity Name"; "DQ"]
      [[Str "1111A0"; Str "Fresh soybeans"; Int 3]]);
   ("2015_Detail_Industry",
    mkDataFrame ["Industry Code"; "Industry Name"; "DQ"]
      [[Str "1111A0"; Str "Oilseed farming"; Float 25 (-1)]])].

(** The industry sheet of 2015 lacks the "Substance" column. *)
Definition wb_uneven : workbook :=
  [("2015_Detail_Commodity", sample_sheet Commodity "1111A0" "Fresh soybeans");
   ("2015_Detail_Industry",
    mkDataFrame ["Industry Code"; "Industry Name"]
      [[Str "1111A0"; Str "Oilseed farming"]])].

(** ** Facts about strings *)

Lemma lstrip_first (s : string) : space_at (first_char (lstrip s)) = false.
Proof.
  induction s as [|c s IH]; simpl; [reflexivity|].
  destruct (isspace c) eqn:E; [exact IH|]. simpl. exact E.
Qed.

Lemma rstrip_first (s : string) :
  space_at (first_char s) = false -> space_at (first_char (rstrip s)) = false.
Proof.
  destruct s as [|c s]; simpl; [reflexivity|].
  intros E. destruct (rstrip s); [rewrite E|]; simpl; auto.
Qed.

Lemma rstrip_last (s : string) : space_at (last_char (rstrip s)) = false.
Proof.
  induction s as [|c s IH]; simpl; [reflexivity|].
  destruct (rstrip s) as [|d t] eqn:R.
  - destruct (isspace c) eqn:E; simpl; auto.
  - exact IH.
Qed.

Lemma strip_not_padded (s : string) : padded (strip s) = false.
Proof.
  unfold padded, strip.
  rewrite rstrip_first by apply lstrip_first.
  rewrite rstrip_last. reflexivity.
Qed.

Lemma rename_not_padded (k : kind) (c : label) :
  padded c = false -> padded (rename_label (renames k) c) = false.
Proof.
  intros H. destruct k; cbn [renames rename_label];
    repeat match goal with
           | |- context [String.eqb ?a c] => destruct (String.eqb a c)
           end; solve [exact H | reflexivity].
Qed.

(** ** Facts about label lists *)

Lemma labels_eqb_eq (a b : list label) : labels_eqb a b = true <-> a = b.
Proof.
  revert b. induction a as [|x a IH]; destruct b as [|y b]; simpl;
    try (split; [discriminate | congruence]); [tauto|].
  rewrite andb_true_iff, String.eqb_eq, IH.
  split; [intros [-> ->]; reflexivity | intros E; inversion E; auto].
Qed.


Lemma mem_In (c : label) (l : list label) : mem c l = true <-> In c l.
Proof.
  unfold mem. rewrite existsb_exists. split.
  - intros [x [Hx E]]. apply String.eqb_eq in E. subst. exact Hx.
  - intros H. exists c. split; [exact H | apply String.eqb_refl].
Qed.

Lemma mem_not_In (c : label) (l : list label) : mem c l = false <-> ~ In c l.
Proof.
  rewrite <- mem_In. destruct (mem c l); split; congruence.
Qed.

Lemma nodupb_NoDup (l : list label) : nodupb l = true <-> NoDup l.
Proof.
  induction l as [|x l IH]; simpl.
  - split; [constructor | reflexivity].
  - rewrite andb_true_iff, negb_true_iff, mem_not_In, IH. split.
    + intros [H1 H2]. constructor; assumption.
    + intros H. inversion H; subst. split; assumption.
Qed.

Lemma unique_In (seen l : list label) (x : label) :
  In x (unique seen l) <-> In x l /\ ~ In x seen.
Proof.
  revert seen. induction l as [|a l IH]; intros seen; simpl; [tauto|].
  destruct (mem a seen) eqn:M.
  - apply mem_In in M. rewrite IH. split.
    + intros [H1 H2]. auto.
    + intros [[->|H1] H2]; [contradiction | auto].
  - apply mem_not_In in M. simpl. rewrite IH. simpl. split.
    + intros [->|[H1 H2]]; [auto|]. split; [auto|]. intros H. apply H2. auto.
    + intros [[->|H1] H2]; [auto|].
      destruct (string_dec a x) as [->|N]; [auto|].
      right. split; [exact H1|]. intros [E|H]; [exact (N E) | exact (H2 H)].
Qed.

Lemma unique_NoDup (seen l : list label) : NoDup (unique seen l).
Proof.
  revert seen. induction l as [|a l IH]; intros seen; simpl; [constructor|].
  destruct (mem a seen) eqn:M; [apply IH|].
  constructor; [|apply IH].
  rewrite unique_In. simpl. intros [_ H]. apply H. auto.
Qed.

(** ** Facts about the loop *)

Lemma ingest_app (wb : workbook) (st : state) (a b : list Z) :
  ingest wb st (a ++ b) = ingest wb (ingest wb st a) b.
Proof. unfold ingest. apply fold_left_app. Qed.

Lemma ingest_cons (wb : workbook) (st : state) (y : Z) (ys : list Z) :
  ingest wb st (y :: ys) = ingest wb (loop_body wb st y) ys.
Proof. reflexivity. Qed.

Lemma all_data_loop_body (wb : workbook) (st : state) (y : Z) :
  all_data (loop_body wb st y)
  = all_data st ++ (if is_ok (ingest_year wb y) then [year_table wb y] else []).
Proof.
  unfold loop_body, year_table.
  destruct (ingest_year wb y); simpl; [reflexivity | now rewrite app_nil_r].
Qed.

Lemma all_data_ingest (wb : workbook) (st : state) (ys : list Z) :
  all_data (ingest wb st ys)
  = all_data st ++ map (year_table wb) (ingested wb ys).
Proof.
  revert st. induction ys as [|y ys IH]; intros st.
  - simpl. now rewrite app_nil_r.
  - rewrite ingest_cons, IH, all_data_loop_body. unfold ingested. simpl.
    destruct (is_ok (ingest_year wb y)); simpl.
    + now rewrite <- app_assoc.
    + now rewrite app_nil_r.
Qed.

Lemma all_data_ingestion_cell (wb : workbook) (ys : list Z) :
  all_data (ingestion_cell wb ys) = map (year_table wb) (ingested wb ys).
Proof. unfold ingestion_cell. now rewrite all_data_ingest. Qed.

Lemma ingested_app (wb : workbook) (a b : list Z) :
  ingested wb (a ++ b) = ingested wb a ++ ingested wb b.
Proof. unfold ingested. apply filter_app. Qed.

Lemma ingested_In (wb : workbook) (ys : list Z) (y : Z) :
  In y (ingested wb ys) <-> In y ys /\ exists df, ingest_year wb y = Ok df.
Proof.
  unfold ingested. rewrite filter_In. split; intros [H1 H2]; split; auto.
  - destruct (ingest_year wb y) as [df|e]; [now exists df | discriminate].
  - destruct H2 as [df ->]. reflexivity.
Qed.

Lemma ingest_year_inv (wb : workbook) (y : Z) (df : DataFrame) :
  ingest_year wb y = Ok df ->
  exists c i,
    read_excel wb (sheet_name y Commodity) = Ok c /\
    read_excel wb (sheet_name y Industry) = Ok i /\
    concat [normalize Commodity y c; normalize Industry y i] = Ok df.
Proof.
  unfold ingest_year, sheet_name, kind_name. simpl append.
  destruct (read_excel wb (str_int y ++ "_Detail_Commodity")) as [c|e];
    [|discriminate].
  destruct (read_excel wb (str_int y ++ "_Detail_Industry")) as [i|e];
    [|discriminate].
  simpl. intros H. exists c, i. auto.
Qed.

Lemma ingest_year_reads (wb : workbook) (y : Z) (c i : DataFrame) :
  read_excel wb (sheet_name y Commodity) = Ok c ->
  read_excel wb (sheet_name y Industry) = Ok i ->
  ingest_year wb y
  = concat [normalize Commodity y c; normalize Industry y i].
Proof.
  unfold ingest_year, sheet_name, kind_name. simpl append.
  intros -> ->. reflexivity.
Qed.

(** The [try] body raises exactly when one of the two reads raises or, both
    sheets read, the concatenation of the two normalized tables raises. *)
Lemma ingest_year_raises (wb : workbook) (y : Z) (e : exn) :
  ingest_year wb y = Raise e <->
  read_excel wb (sheet_name y Commodity) = Raise e \/
  (exists c,
      read_excel wb (sheet_name y Commodity) = Ok c /\
      (read_excel wb (sheet_name y Industry) = Raise e \/
       exists i,
         read_excel wb (sheet_name y Industry) = Ok i /\
         concat [normalize Commodity y c; normalize Industry y i] = Raise e)).
Proof.
  destruct (read_excel wb (sheet_name y Commodity)) as [c|e1] eqn:Hc.
  - destruct (read_excel wb (sheet_name y Industry)) as [i|e2] eqn:Hi.
    + rewrite (ingest_year_reads _ _ _ _ Hc Hi). split.
      * intros H. right. exists c. split; [reflexivity|]. right.
        exists i. auto.
      * intros [H|(c' & Ec & [H|(i' & Ei & H)])]; try discriminate.
        injection Ec as <-. injection Ei as <-. exact H.
    + assert (E : ingest_year wb y = Raise e2).
      { revert Hc Hi. unfold ingest_year, sheet_name, kind_name. simpl append.
        now intros -> ->. }
      rewrite E. split.
      * intros H. right. exists c. auto.
      * intros [H|(c' & _ & [H|(i' & Ei & _)])]; try discriminate. exact H.
  - assert (E : ingest_year wb y = Raise e1).
    { revert Hc. unfold ingest_year, sheet_name, kind_name. simpl append.
      now intros ->. }
    rewrite E. split.
    + intros H. now left.
    + intros [H|(c' & Ec & _)]; [exact H | discriminate].
Qed.

(** A year is also skipped when both sheets are read and the
    transformation raises. *)
Example clash_is_skipped :
  ingestion_cell wb_clash [2015]
  = mkState []
      ["Error processing year 2015: Reindexing only valid with uniquely valued Index objects"].
Proof. reflexivity. Qed.

(** An integer column becomes a float column when the other sheet's column
    holds floats, and when the other sheet lacks the column. *)
Example mixed_score_is_upcast :
  combined wb_mixed [2015]
  = Ok (mkDataFrame ["Code"; "Name"; "DQ"; "Source"; "Year"]
          [[Str "1111A0"; Str "Fresh soybeans"; Float 3 0;
            Str "Commodity"; Int 2015];
           [Str "1111A0"; Str "Oilseed farming"; Float 25 (-1);
            Str "Industry"; Int 2015]]) /\
  concat [mkDataFrame ["DQ"] [[Int 3]]; mkDataFrame ["X"] [[Str "a"]]]
  = Ok (mkDataFrame ["DQ"; "X"] [[Float 3 0; NaN]; [NaN; Str "a"]]) /\
  float_of_int (2 ^ 53 + 1) = 2 ^ 53.
Proof. repeat split; reflexivity. Qed.

(** ** Facts about [concat] *)

Lemma concat_inv (objs : list DataFrame) (df : DataFrame) :
  concat objs = Ok df ->
  objs <> [] /\
  rows df = unify (columns df) (aligned objs (columns df)) /\
  Forall (fun g => columns g = columns df \/ NoDup (columns g)) objs /\
  (forall g c, In g objs -> In c (columns g) -> In c (columns df)) /\
  (forall c, In c (columns df) -> exists g, In g objs /\ In c (columns g)) /\
  (Forall (fun g => NoDup (columns g)) objs -> NoDup (columns df)).
Proof.
  destruct objs as [|f fs]; [discriminate|].
  unfold concat.
  set (new := combined_columns f fs).
  destruct (forallb _ (f :: fs)) eqn:A; [|discriminate].
  intros E. inversion E; subst df; clear E. cbn [columns rows].
  split; [discriminate|]. split; [reflexivity|].
  assert (Hall : Forall (fun g => columns g = new \/ NoDup (columns g)) (f :: fs)).
  { rewrite forallb_forall in A. apply Forall_forall. intros g Hg.
    specialize (A g Hg). apply orb_true_iff in A.
    destruct A as [A|A]; [left; now apply labels_eqb_eq | right; now apply nodupb_NoDup]. }
  split; [exact Hall|].
  unfold new, combined_columns.
  destruct (forallb (fun g => labels_eqb (columns f) (columns g)) fs) eqn:S.
  - rewrite forallb_forall in S.
    assert (Hsame : forall g, In g (f :: fs) -> columns g = columns f).
    { intros g [<-|Hg]; [reflexivity|]. symmetry. apply labels_eqb_eq. auto. }
    split; [|split].
    + intros g c Hg Hc. rewrite <- (Hsame g Hg). exact Hc.
    + intros c Hc. exists f. split; [left; reflexivity | exact Hc].
    + intros N. inversion N; assumption.
  - split; [|split].
    + intros g c Hg Hc. apply unique_In. split; [|tauto].
      apply in_flat_map. exists g. auto.
    + intros c Hc. apply unique_In in Hc. destruct Hc as [Hc _].
      apply in_flat_map in Hc. exact Hc.
    + intros _. apply unique_NoDup.
Qed.

Lemma concat_nodup_ok (objs : list DataFrame) :
  objs <> [] ->
  Forall (fun g => NoDup (columns g)) objs ->
  exists df, concat objs = Ok df.
Proof.
  destruct objs as [|f fs]; [congruence|]. intros _ N.
  unfold concat.
  destruct (forallb _ (f :: fs)) eqn:A; [eexists; reflexivity|].
  exfalso. apply not_true_iff_false in A. apply A.
  apply forallb_forall. intros g Hg. apply orb_true_iff. right.
  apply nodupb_NoDup. rewrite Forall_forall in N. auto.
Qed.

Lemma concat_nrows (objs : list DataFrame) (df : DataFrame) :
  concat objs = Ok df -> nrows df = list_sum (map nrows objs).
Proof.
  intros H. apply concat_inv in H. destruct H as (_ & R & _).
  unfold nrows. rewrite R. clear R. unfold unify, aligned.
  rewrite length_map.
  induction objs as [|g objs IH]; simpl; [reflexivity|].
  now rewrite length_app, length_map, IH.
Qed.

(** ** Facts about [field] *)

Lemma field_Some_In (cols : list label) (r : list cell) (c : label) (v : cell) :
  field cols r c = Some v -> In c cols.
Proof.
  revert r. induction cols as [|l cols IH]; intros [|x r]; simpl;
    try discriminate.
  destruct (String.eqb l c) eqn:E.
  - apply String.eqb_eq in E. auto.
  - intros H. right. eapply IH, H.
Qed.

Lemma field_reindex (old new : list label) (r : list cell) (c : label) :
  In c new -> field new (reindex old new r) c = Some (or_nan (field old r c)).
Proof.
  unfold reindex. induction new as [|l new IH]; simpl; [tauto|].
  destruct (String.eqb l c) eqn:E.
  - apply String.eqb_eq in E. now subst.
  - apply String.eqb_neq in E. intros [H|H]; [contradiction | auto].
Qed.

Lemma field_align (old new : list label) (r : list cell) (c : label) (v : cell) :
  In c new ->
  field old r c = Some v ->
  field new (align old new r) c = Some v.
Proof.
  intros Hin H. unfold align. destruct (labels_eqb old new) eqn:E.
  - apply labels_eqb_eq in E. now subst.
  - rewrite field_reindex by exact Hin. now rewrite H.
Qed.

Lemma field_overwrite_same (cols : list label) (c : label) (v : cell)
  (r : list cell) :
  In c cols -> List.length r = List.length cols ->
  field cols (overwrite cols c v r) c = Some v.
Proof.
  revert r. induction cols as [|l cols IH]; intros [|x r]; simpl;
    try tauto; try discriminate.
  intros Hin Hlen. destruct (String.eqb l c) eqn:E; [reflexivity|].
  apply String.eqb_neq in E. destruct Hin as [H|H]; [contradiction|].
  apply IH; [exact H | lia].
Qed.

Lemma field_overwrite_other (cols : list label) (c c' : label) (v : cell)
  (r : list cell) :
  c <> c' -> field cols (overwrite cols c v r) c' = field cols r c'.
Proof.
  intros N. revert r. induction cols as [|l cols IH]; intros [|x r]; simpl;
    try reflexivity.
  destruct (String.eqb l c') eqn:E; [|apply IH].
  apply String.eqb_eq in E. subst l.
  apply not_eq_sym in N. apply String.eqb_neq in N. now rewrite N.
Qed.

Lemma length_overwrite (cols : list label) (c : label) (v : cell)
  (r : list cell) :
  List.length (overwrite cols c v r) = List.length r.
Proof.
  revert r. induction cols as [|l cols IH]; intros [|x r]; simpl; auto.
Qed.

Lemma field_snoc_same (cols : list label) (c : label) (v : cell)
  (r : list cell) :
  ~ In c cols -> List.length r = List.length cols ->
  field (cols ++ [c]) (r ++ [v]) c = Some v.
Proof.
  revert r. induction cols as [|l cols IH]; intros [|x r]; simpl;
    try discriminate.
  - intros _ _. now rewrite String.eqb_refl.
  - intros N Hlen. destruct (String.eqb l c) eqn:E.
    + apply String.eqb_eq in E. tauto.
    + apply IH; [tauto | lia].
Qed.

Lemma field_snoc_other (cols : list label) (c c' : label) (v : cell)
  (r : list cell) :
  c <> c' -> List.length r = List.length cols ->
  field (cols ++ [c]) (r ++ [v]) c' = field cols r c'.
Proof.
  intros N. revert r. induction cols as [|l cols IH]; intros [|x r]; simpl;
    try discriminate.
  - intros _. apply String.eqb_neq in N. now rewrite N.
  - intros Hlen. destruct (String.eqb l c'); [reflexivity|].
    apply IH. lia.
Qed.

Lemma field_map_inj (g : label -> label) (cols : list label) (r : list cell)
  (c : label) :
  NoDup (map g cols) -> In c cols ->
  field (map g cols) r (g c) = field cols r c.
Proof.
  revert r. induction cols as [|l cols IH]; intros [|x r]; simpl;
    try reflexivity.
  intros N Hin. inversion N as [|? ? Hnot N']; subst.
  destruct (String.eqb l c) eqn:E.
  - apply String.eqb_eq in E. subst. now rewrite String.eqb_refl.
  - apply String.eqb_neq in E. destruct Hin as [H|H]; [contradiction|].
    destruct (String.eqb (g l) (g c)) eqn:G.
    + apply String.eqb_eq in G. exfalso. apply Hnot. rewrite G.
      now apply in_map.
    + now apply IH.
Qed.

(** ** Facts about the normalization of one sheet *)

Lemma setitem_rectangular (c : label) (v : cell) (df : DataFrame) :
  rectangular df -> rectangular (setitem c v df).
Proof.
  unfold rectangular, setitem. intros H.
  destruct (mem c (columns df)); simpl; apply Forall_map;
    eapply Forall_impl; [| exact H | | exact H]; simpl; intros r Hr.
  - now rewrite length_overwrite.
  - rewrite !length_app. simpl. lia.
Qed.

Lemma setitem_same (c : label) (v : cell) (df : DataFrame) :
  rectangular df ->
  Forall (fun r => field (columns (setitem c v df)) r c = Some v)
    (rows (setitem c v df)).
Proof.
  unfold rectangular, setitem. intros H.
  destruct (mem c (columns df)) eqn:M; simpl; apply Forall_map;
    eapply Forall_impl; [| exact H | | exact H]; simpl; intros r Hr.
  - apply field_overwrite_same; [now apply mem_In | exact Hr].
  - apply field_snoc_same; [now apply mem_not_In | exact Hr].
Qed.

Lemma setitem_other (c c' : label) (v w : cell) (df : DataFrame) :
  c <> c' ->
  rectangular df ->
  Forall (fun r => field (columns df) r c' = Some w) (rows df) ->
  Forall (fun r => field (columns (setitem c v df)) r c' = Some w)
    (rows (setitem c v df)).
Proof.
  unfold rectangular, setitem. intros N H K.
  assert (HK := Forall_and H K). clear H K.
  destruct (mem c (columns df)) eqn:M; simpl; apply Forall_map;
    eapply Forall_impl; [| exact HK | | exact HK]; simpl; intros r [Hr Kr].
  - now rewrite field_overwrite_other.
  - now rewrite field_snoc_other.
Qed.

Lemma rows_normalize (k : kind) (y : Z) (df : DataFrame) :
  nrows (normalize k y df) = nrows df.
Proof.
  unfold nrows, normalize, rename, strip_columns, setitem. simpl.
  repeat match goal with
         | |- context [if ?b then _ else _] => destruct b; simpl
         end; now rewrite !length_map.
Qed.

Lemma normalize_tags (k : kind) (y : Z) (df : DataFrame) :
  rectangular df ->
  NoDup (columns (normalize k y df)) ->
  Forall (fun r =>
            field (columns (normalize k y df)) r "Source" = Some (Str (kind_name k))
            /\ field (columns (normalize k y df)) r "Year" = Some (Int y))
    (rows (normalize k y df)).
Proof.
  intros R N.
  set (t1 := setitem "Source" (Str (kind_name k)) df).
  set (t2 := setitem "Year" (Int y) t1).
  set (g := fun c => rename_label (renames k) (strip c)).
  assert (C : columns (normalize k y df) = map g (columns t2)).
  { unfold normalize, rename, strip_columns. simpl. now rewrite map_map. }
  assert (Rw : rows (normalize k y df) = rows t2) by reflexivity.
  rewrite C in *. rewrite Rw.
  assert (R1 : rectangular t1) by now apply setitem_rectangular.
  assert (S1 := setitem_same "Source" (Str (kind_name k)) df R). fold t1 in S1.
  assert (S2 : Forall (fun r => field (columns t2) r "Source" = Some (Str (kind_name k)))
                 (rows t2)).
  { apply setitem_other; [discriminate | exact R1 | exact S1]. }
  assert (Y2 := setitem_same "Year" (Int y) t1 R1). fold t2 in Y2.
  assert (SY := Forall_and S2 Y2).
  eapply Forall_impl; [| exact SY]. simpl. intros r [Hs Hy].
  assert (Gs : g "Source" = "Source") by (unfold g; destruct k; reflexivity).
  assert (Gy : g "Year" = "Year") by (unfold g; destruct k; reflexivity).
  split.
  - rewrite <- Gs at 1. rewrite field_map_inj; eauto using field_Some_In.
  - rewrite <- Gy at 1. rewrite field_map_inj; eauto using field_Some_In.
Qed.

(** ** Facts about column types *)

Lemma flat_map_ext_in {A B : Type} (f g : A -> list B) (l : list A) :
  (forall a, In a l -> f a = g a) -> flat_map f l = flat_map g l.
Proof.
  induction l as [|a l IH]; simpl; intros H; [reflexivity|].
  rewrite H by auto. rewrite IH by auto. reflexivity.
Qed.

Lemma flat_map_map {A B C : Type} (g : A -> B) (f : B -> list C) (l : list A) :
  flat_map f (map g l) = flat_map (fun a => f (g a)) l.
Proof.
  induction l as [|a l IH]; simpl; [reflexivity | now rewrite IH].
Qed.

Lemma to_float_idem (v : cell) : to_float (to_float v) = to_float v.
Proof. destruct v; reflexivity. Qed.

Lemma to_float_floatish (v : cell) :
  is_floatish v = true -> to_float v = v.
Proof. destruct v; simpl; congruence. Qed.

Lemma map_flat_map {A B C : Type} (f : B -> C) (g : A -> list B) (l : list A) :
  map f (flat_map g l) = flat_map (fun a => map f (g a)) l.
Proof.
  induction l as [|a l IH]; simpl; [reflexivity|].
  now rewrite map_app, IH.
Qed.

(** Under a label, a row holds after the type change what it held before,
    or the float of it. *)
Lemma field_upcast_row (flags : list bool) (cols : list label)
  (r : list cell) (c : label) (v : cell) :
  field cols r c = Some v ->
  field cols (upcast_row flags r) c = Some v \/
  field cols (upcast_row flags r) c = Some (to_float v).
Proof.
  revert flags r. induction cols as [|l cols IH]; intros flags [|x r];
    simpl; try discriminate.
  destruct flags as [|b flags]; simpl.
  - destruct (String.eqb l c); auto.
  - destruct (String.eqb l c).
    + intros [= ->]. destruct b; auto.
    + apply IH.
Qed.

Lemma field_upcast_row_fixed (flags : list bool) (cols : list label)
  (r : list cell) (c : label) (v : cell) :
  to_float v = v ->
  field cols r c = Some v ->
  field cols (upcast_row flags r) c = Some v.
Proof.
  intros E H. destruct (field_upcast_row flags cols r c v H) as [K|K];
    [exact K | now rewrite E in K].
Qed.

Lemma head_is_false (p : cell -> bool) (cols : list label) (c : label)
  (rs : list (list cell)) (l : label) :
  String.eqb l c = true ->
  (forall r, In r rs ->
     exists v, field (l :: cols) r c = Some v /\ p v = false) ->
  existsb (head_is p) rs = false.
Proof.
  intros E H. apply not_true_iff_false. intros X.
  apply existsb_exists in X. destruct X as (r & Hr & P).
  destruct (H r Hr) as (v & F & N). destruct r as [|x r]; [discriminate|].
  simpl in F, P. rewrite E in F. injection F as ->. congruence.
Qed.

(** A column in which every row holds a value that is neither a float nor
    missing keeps its values. *)
Lemma field_unify_keep (cols : list label) (rs : list (list cell))
  (c : label) :
  (forall r, In r rs ->
     exists v, field cols r c = Some v /\ is_floatish v = false) ->
  forall r, field cols (upcast_row (upcast_flags cols rs) r) c = field cols r c.
Proof.
  revert rs. induction cols as [|l cols IH]; intros rs H r; [reflexivity|].
  simpl. destruct r as [|x r]; [reflexivity|]. simpl.
  destruct (String.eqb l c) eqn:E.
  - unfold floaty_head. rewrite (head_is_false is_floatish cols c rs l E H).
    now rewrite andb_false_r.
  - apply IH. intros t Ht. apply in_map_iff in Ht.
    destruct Ht as (r' & <- & Hr'). destruct (H r' Hr') as (v & F & N).
    destruct r' as [|x' r']; [discriminate|]. simpl in F. rewrite E in F.
    now exists v.
Qed.

Lemma map_tl_upcast_row (b : bool) (flags : list bool)
  (rs : list (list cell)) :
  map (@tl cell) (map (upcast_row (b :: flags)) rs)
  = map (upcast_row flags) (map (@tl cell) rs).
Proof.
  rewrite !map_map. apply map_ext. intros [|x r]; [|reflexivity].
  now destruct flags.
Qed.

Lemma existsb_head_upcast (p : cell -> bool) (b : bool) (flags : list bool)
  (rs : list (list cell)) :
  (forall v, p (if b then to_float v else v) = p v) ->
  existsb (head_is p) (map (upcast_row (b :: flags)) rs)
  = existsb (head_is p) rs.
Proof.
  intros P. induction rs as [|r rs IH]; [reflexivity|]. cbn [map existsb].
  rewrite IH. f_equal. destruct r as [|x r]; [reflexivity|]. simpl. apply P.
Qed.

(** The type change does not alter which columns are float64. *)
Lemma upcast_flags_unify (cols : list label) (rs : list (list cell)) :
  upcast_flags cols (unify cols rs) = upcast_flags cols rs.
Proof.
  unfold unify. revert rs. induction cols as [|l cols IH]; intros rs;
    [reflexivity|].
  cbn [upcast_flags]. rewrite map_tl_upcast_row, IH. f_equal.
  unfold floaty_head at 1.
  destruct (floaty_head rs) eqn:B.
  - rewrite (existsb_head_upcast is_str) by (intros []; reflexivity).
    unfold floaty_head in B. apply andb_true_iff in B. destruct B as [B1 B2].
    rewrite B1. simpl. apply not_false_iff_true. intros X.
    apply not_true_iff_false in X. apply X. clear X.
    apply existsb_exists in B2. destruct B2 as (r & Hr & P).
    apply existsb_exists. exists (upcast_row (true :: upcast_flags cols (map (@tl cell) rs)) r).
    split; [now apply in_map|].
    destruct r as [|x r]; [discriminate|]. simpl in *.
    now rewrite (to_float_floatish x P).
  - rewrite (existsb_head_upcast is_str), (existsb_head_upcast is_floatish)
      by reflexivity.
    exact B.
Qed.

(** The rows of a concatenation are the rows of its tables, in order, each
    settled in the result. *)
Lemma concat_rows_settle (objs : list DataFrame) (df : DataFrame) :
  concat objs = Ok df ->
  rows df = flat_map (fun g => map (settle g df) (rows g)) objs.
Proof.
  intros H. apply concat_inv in H. destruct H as (_ & R & _).
  assert (E : upcast_flags (columns df) (rows df)
              = upcast_flags (columns df) (aligned objs (columns df))).
  { rewrite R. apply upcast_flags_unify. }
  unfold settle. rewrite E, R. unfold unify, aligned.
  rewrite map_flat_map. apply flat_map_ext_in. intros g _.
  now rewrite map_map.
Qed.

Lemma settle_field (objs : list DataFrame) (old new : DataFrame)
  (r : list cell) (c : label) (v : cell) :
  concat objs = Ok new ->
  In old objs ->
  field (columns old) r c = Some v ->
  field (columns new) (settle old new r) c = Some v \/
  field (columns new) (settle old new r) c = Some (to_float v).
Proof.
  intros H Hin F. apply concat_inv in H. destruct H as (_ & _ & _ & Up & _).
  unfold settle. apply field_upcast_row, field_align; [|exact F].
  apply (Up old); [exact Hin | eapply field_Some_In, F].
Qed.

(** A column whose values are neither floats nor missing in any of the
    concatenated tables keeps them in the result. *)
Lemma settle_field_keep (objs : list DataFrame) (new : DataFrame) (c : label) :
  concat objs = Ok new ->
  (forall g r, In g objs -> In r (rows g) ->
     exists v, field (columns g) r c = Some v /\ is_floatish v = false) ->
  forall old r v,
    In old objs ->
    field (columns old) r c = Some v ->
    field (columns new) (settle old new r) c = Some v.
Proof.
  intros H K old r v Hin F. apply concat_inv in H.
  destruct H as (_ & R & _ & Up & _).
  assert (E : upcast_flags (columns new) (rows new)
              = upcast_flags (columns new) (aligned objs (columns new))).
  { rewrite R. apply upcast_flags_unify. }
  unfold settle. rewrite E, field_unify_keep.
  - apply field_align; [|exact F].
    apply (Up old); [exact Hin | eapply field_Some_In, F].
  - intros a Ha. unfold aligned in Ha. apply in_flat_map in Ha.
    destruct Ha as (g & Hg & Ha). apply in_map_iff in Ha.
    destruct Ha as (r0 & <- & Hr0).
    destruct (K g r0 Hg Hr0) as (w & Fw & Nw). exists w. split; [|exact Nw].
    apply field_align; [|exact Fw].
    apply (Up g); [exact Hg | eapply field_Some_In, Fw].
Qed.

(** ** The shape of the combined table *)

Lemma ingested_sheets (wb : workbook) (ys : list Z) (y : Z) :
  In y (ingested wb ys) ->
  In y ys /\
  (forall k, read_excel wb (sheet_name y k) = Ok (sheet wb y k)) /\
  concat [normalize Commodity y (sheet wb y Commodity);
          normalize Industry y (sheet wb y Industry)]
  = Ok (year_table wb y).
Proof.
  intros H. apply ingested_In in H. destruct H as [Hy [t Ht]].
  split; [exact Hy|].
  destruct (ingest_year_inv _ _ _ Ht) as (c & i & Hc & Hi & Hcat).
  unfold year_table, sheet. rewrite Ht. split.
  - intros []; [rewrite Hc | rewrite Hi]; reflexivity.
  - rewrite Hc, Hi. exact Hcat.
Qed.

Lemma year_table_rows (wb : workbook) (ys : list Z) (y : Z) :
  In y (ingested wb ys) ->
  rows (year_table wb y)
  = map (settle (normalize Commodity y (sheet wb y Commodity))
           (year_table wb y))
      (rows (normalize Commodity y (sheet wb y Commodity)))
    ++ map (settle (normalize Industry y (sheet wb y Industry))
              (year_table wb y))
         (rows (normalize Industry y (sheet wb y Industry))).
Proof.
  intros H. destruct (ingested_sheets _ _ _ H) as (_ & _ & Hcat).
  rewrite (concat_rows_settle _ _ Hcat). simpl. now rewrite app_nil_r.
Qed.

Lemma combined_eq (wb : workbook) (ys : list Z) :
  combined wb ys = concat (map (year_table wb) (ingested wb ys)).
Proof.
  unfold combined, concat_cell. now rewrite all_data_ingestion_cell.
Qed.

Lemma combined_rows (wb : workbook) (ys : list Z) (df : DataFrame) :
  combined wb ys = Ok df ->
  rows df
  = flat_map (fun y => block df wb y Commodity ++ block df wb y Industry)
      (ingested wb ys).
Proof.
  rewrite combined_eq. intros H.
  rewrite (concat_rows_settle _ _ H), flat_map_map.
  apply flat_map_ext_in. intros y Hy.
  rewrite (year_table_rows _ _ _ Hy), map_app, !map_map. reflexivity.
Qed.

Lemma carry_field (wb : workbook) (ys : list Z) (df : DataFrame) (y : Z)
  (k : kind) (r : list cell) (c : label) (v : cell) :
  combined wb ys = Ok df ->
  In y (ingested wb ys) ->
  field (columns (normalize k y (sheet wb y k))) r c = Some v ->
  field (columns df) (carry df wb y k r) c = Some v \/
  field (columns df) (carry df wb y k r) c = Some (to_float v).
Proof.
  rewrite combined_eq. intros H Hy F.
  destruct (ingested_sheets _ _ _ Hy) as (_ & _ & Hcat).
  assert (Hk : In (normalize k y (sheet wb y k))
                 [normalize Commodity y (sheet wb y Commodity);
                  normalize Industry y (sheet wb y Industry)]).
  { destruct k; simpl; auto. }
  assert (Hyt : In (year_table wb y) (map (year_table wb) (ingested wb ys))).
  { now apply in_map. }
  unfold carry.
  destruct (settle_field _ _ _ r c v Hcat Hk F) as [F1|F1];
    destruct (settle_field _ _ _ _ c _ H Hyt F1) as [F2|F2];
    rewrite ?to_float_idem in F2; auto.
Qed.

Lemma year_table_tags (wb : workbook) (ys : list Z) (y : Z) (k : kind)
  (r : list cell) :
  tidy wb ys ->
  In y (ingested wb ys) ->
  In r (rows (normalize k y (sheet wb y k))) ->
  field (columns (year_table wb y))
    (settle (normalize k y (sheet wb y k)) (year_table wb y) r) "Source"
  = Some (Str (kind_name k)) /\
  field (columns (year_table wb y))
    (settle (normalize k y (sheet wb y k)) (year_table wb y) r) "Year"
  = Some (Int y).
Proof.
  intros T Hy Hr.
  destruct (ingested_sheets _ _ _ Hy) as (Hin & Hread & Hcat).
  assert (Tags : forall k' r',
             In r' (rows (normalize k' y (sheet wb y k'))) ->
             field (columns (normalize k' y (sheet wb y k'))) r' "Source"
             = Some (Str (kind_name k')) /\
             field (columns (normalize k' y (sheet wb y k'))) r' "Year"
             = Some (Int y)).
  { intros k' r' Hr'. destruct (T y k' _ Hin (Hread k')) as [R N].
    pose proof (normalize_tags k' y _ R N) as Tg.
    rewrite Forall_forall in Tg. now apply Tg. }
  assert (Hk : In (normalize k y (sheet wb y k))
                 [normalize Commodity y (sheet wb y Commodity);
                  normalize Industry y (sheet wb y Industry)]).
  { destruct k; simpl; auto. }
  destruct (Tags k r Hr) as [Fs Fy]. split.
  - destruct (settle_field _ _ _ r _ _ Hcat Hk Fs) as [F|F]; exact F.
  - apply (settle_field_keep _ _ "Year" Hcat); [|exact Hk | exact Fy].
    intros g r' [<-|[<-|[]]] Hr'; exists (Int y);
      (split; [now apply Tags | reflexivity]).
Qed.

Lemma year_table_row (wb : workbook) (ys : list Z) (y : Z) (r : list cell) :
  In y (ingested wb ys) ->
  In r (rows (year_table wb y)) ->
  exists k r0,
    In r0 (rows (normalize k y (sheet wb y k))) /\
    r = settle (normalize k y (sheet wb y k)) (year_table wb y) r0.
Proof.
  intros Hy Hr. rewrite (year_table_rows _ _ _ Hy) in Hr.
  apply in_app_or in Hr.
  destruct Hr as [Hr|Hr]; apply in_map_iff in Hr;
    destruct Hr as (r0 & <- & Hr0);
    [exists Commodity | exists Industry]; eauto.
Qed.

Lemma block_tags (wb : workbook) (ys : list Z) (df : DataFrame) (y : Z)
  (k : kind) (r : list cell) :
  tidy wb ys ->
  combined wb ys = Ok df ->
  In y (ingested wb ys) ->
  In r (block df wb y k) ->
  field (columns df) r "Source" = Some (Str (kind_name k)) /\
  field (columns df) r "Year" = Some (Int y).
Proof.
  intros T H Hy Hr. rewrite combined_eq in H.
  unfold block in Hr. apply in_map_iff in Hr. destruct Hr as (r0 & <- & Hr0).
  destruct (year_table_tags wb ys y k r0 T Hy Hr0) as [Fs Fy].
  assert (Hyt : In (year_table wb y) (map (year_table wb) (ingested wb ys))).
  { now apply in_map. }
  unfold carry. split.
  - destruct (settle_field _ _ _ _ _ _ H Hyt Fs) as [F|F]; exact F.
  - apply (settle_field_keep _ _ "Year" H); [|exact Hyt | exact Fy].
    intros g r Hg Hr. apply in_map_iff in Hg. destruct Hg as (y' & <- & Hy').
    destruct (year_table_row wb ys y' r Hy' Hr) as (k' & r1 & Hr1 & ->).
    exists (Int y'). split; [|reflexivity].
    now apply (year_table_tags wb ys y' k' r1 T Hy').
Qed.

Lemma tidy_year_ok (wb : workbook) (ys : list Z) (y : Z) :
  tidy wb ys ->
  In y ys ->
  (forall k, exists df, read_excel wb (sheet_name y k) = Ok df) ->
  In y (ingested wb ys).
Proof.
  intros T Hy Hr.
  destruct (Hr Commodity) as [c Hc]. destruct (Hr Industry) as [i Hi].
  apply ingested_In. split; [exact Hy|].
  rewrite (ingest_year_reads _ _ _ _ Hc Hi).
  apply concat_nodup_ok; [discriminate|].
  repeat constructor.
  - exact (proj2 (T y Commodity c Hy Hc)).
  - exact (proj2 (T y Industry i Hy Hi)).
Qed.

Lemma tidy_year_table (wb : workbook) (ys : list Z) (y : Z) :
  tidy wb ys ->
  In y (ingested wb ys) ->
  NoDup (columns (year_table wb y)).
Proof.
  intros T Hy.
  destruct (ingested_sheets _ _ _ Hy) as (Hin & Hread & Hcat).
  apply concat_inv in Hcat. destruct Hcat as (_ & _ & _ & _ & _ & N).
  apply N. repeat constructor.
  - exact (proj2 (T y Commodity _ Hin (Hread Commodity))).
  - exact (proj2 (T y Industry _ Hin (Hread Industry))).
Qed.

Lemma tidy_combined_ok (wb : workbook) (ys : list Z) :
  tidy wb ys ->
  ingested wb ys <> [] ->
  exists df, combined wb ys = Ok df.
Proof.
  intros T NE. rewrite combined_eq. apply concat_nodup_ok.
  - destruct (ingested wb ys); [congruence | discriminate].
  - apply Forall_forall. intros g Hg. apply in_map_iff in Hg.
    destruct Hg as (y & <- & Hy). eapply tidy_year_table; eassumption.
Qed.

(** ** The sample workbooks are tidy *)

Lemma wb_2015_2016_tidy : tidy wb_2015_2016 years.
Proof.
  intros y k df Hy H.
  destruct Hy as [<-|[<-|[]]]; destruct k; vm_compute in H;
    injection H as <-;
    (split; [repeat constructor | apply nodupb_NoDup; reflexivity]).
Qed.

Lemma wb_2015_2016_reads (y : Z) (k : kind) :
  In y years -> exists df, read_excel wb_2015_2016 (sheet_name y k) = Ok df.
Proof.
  intros [<-|[<-|[]]]; destruct k; eexists; reflexivity.
Qed.

(** ** The claims *)

(** C1: when the [try] body of a year raises [e], the exception is caught and
    a line holding the year and the exception's message is printed; that
    iteration leaves the accumulator as it was, so the accumulator after the
    loop is the one obtained without that year; the entries of the earlier
    years stay in place and the loop goes on with the remaining years. *)
Theorem C1_failed_year_is_skipped (wb : workbook) (year : Z) (e : exn) :
  ingest_year wb year = Raise e ->
  (forall st,
      loop_body wb st year
      = mkState (all_data st) (stdout st ++ [error_line year e])) /\
  (exists pre mid,
      error_line year e = pre ++ str_int year ++ mid ++ exn_message e)%string /\
  (forall before after,
      all_data (ingestion_cell wb (before ++ year :: after))
      = all_data (ingestion_cell wb (before ++ after))) /\
  (forall st before after,
      ingest wb st (before ++ year :: after)
      = ingest wb
          (mkState (all_data (ingest wb st before))
             (stdout (ingest wb st before) ++ [error_line year e]))
          after) /\
  (forall st before after,
      all_data (ingest wb st (before ++ year :: after))
      = all_data (ingest wb st before)
          ++ map (year_table wb) (ingested wb after)).
Proof.
  intros H.
  assert (B : forall st, loop_body wb st year
                         = mkState (all_data st) (stdout st ++ [error_line year e])).
  { intros st. unfold loop_body. now rewrite H. }
  split; [exact B|]. split.
  { exists "Error processing year "%string, ": "%string. reflexivity. }
  split.
  { intros before after. rewrite !all_data_ingestion_cell, !ingested_app.
    unfold ingested at 2. simpl. now rewrite H. }
  split.
  - intros st before after. now rewrite ingest_app, ingest_cons, B.
  - intros st before after. rewrite ingest_app, ingest_cons, B.
    now rewrite all_data_ingest.
Qed.

Lemma C1_witness :
  ingest_year wb_missing_2013 2013
  = Raise (ValueError "Worksheet named '2013_Detail_Industry' not found") /\
  all_data (ingestion_cell wb_missing_2013 ([2012] ++ 2013 :: [2014]))
  = all_data (ingestion_cell wb_missing_2013 ([2012] ++ [2014])).
Proof.
  split; [reflexivity|].
  apply (C1_failed_year_is_skipped wb_missing_2013 2013
           (ValueError "Worksheet named '2013_Detail_Industry' not found")
           eq_refl).
Defined.

(** C3 as stated fails: with both sheets of 2015 and of 2016 present the
    accumulator holds two entries, not four. *)
Lemma C3_not_twice :
  List.length (all_data (ingestion_cell wb_2015_2016 years))
  <> (2 * List.length (ingested wb_2015_2016 years))%nat.
Proof. vm_compute. discriminate. Qed.

(** C3, amended: every year whose ingestion succeeds appends one table, the
    concatenation of its normalized commodity table and its normalized
    industry table, so the accumulator holds one entry per successfully
    ingested year, in order. *)
Theorem C3_one_entry_per_year (wb : workbook) (ys : list Z) :
  all_data (ingestion_cell wb ys) = map (year_table wb) (ingested wb ys) /\
  List.length (all_data (ingestion_cell wb ys)) = List.length (ingested wb ys) /\
  Forall (fun y =>
            concat [normalize Commodity y (sheet wb y Commodity);
                    normalize Industry y (sheet wb y Industry)]
            = Ok (year_table wb y))
    (ingested wb ys).
Proof.
  split; [apply all_data_ingestion_cell|]. split.
  - now rewrite all_data_ingestion_cell, length_map.
  - apply Forall_forall. intros y Hy.
    now destruct (ingested_sheets _ _ _ Hy) as (_ & _ & Hcat).
Qed.

(** C9: when the [try] body raises for every configured year, the
    accumulator is empty after the loop, the concatenation cell raises
    "No objects to concatenate", and the cells after the loop, run in order,
    stop on an exception without binding [df]. *)
Theorem C9_empty_accumulator_raises (wb : workbook) (ys : list Z) :
  (forall y, In y ys -> exists e, ingest_year wb y = Raise e) ->
  all_data (ingestion_cell wb ys) = [] /\
  concat_cell (ingestion_cell wb ys)
  = Raise (ValueError "No objects to concatenate") /\
  (exists e, cells_after_loop (ingestion_cell wb ys) = Raise e).
Proof.
  intros H.
  assert (E : all_data (ingestion_cell wb ys) = []).
  { rewrite all_data_ingestion_cell.
    assert (I : ingested wb ys = []); [|now rewrite I].
    unfold ingested. induction ys as [|y ys IH]; [reflexivity|]. simpl.
    destruct (H y (or_introl eq_refl)) as [e ->]. simpl.
    apply IH. intros z Hz. apply H. now right. }
  split; [exact E|]. split.
  - unfold concat_cell. now rewrite E.
  - unfold cells_after_loop, last_entry. rewrite E. simpl. eexists. reflexivity.
Qed.

Lemma wb_empty_fails (y : Z) :
  In y years -> exists e, ingest_year wb_empty y = Raise e.
Proof. intros _. eexists. reflexivity. Qed.

Lemma C9_witness :
  concat_cell (ingestion_cell wb_empty years)
  = Raise (ValueError "No objects to concatenate").
Proof.
  apply (C9_empty_accumulator_raises wb_empty years wb_empty_fails).
Defined.

(** C10: an iteration either leaves the accumulator as it is or appends one
    entry at its end; whatever the loop starts from stays, in place and
    unchanged, as the prefix of the accumulator, and at most one entry is
    added per year. *)
Theorem C10_accumulator_append_only (wb : workbook) (st : state) :
  (forall y,
      all_data (loop_body wb st y) = all_data st \/
      exists df, all_data (loop_body wb st y) = all_data st ++ [df]) /\
  (forall ys,
      firstn (List.length (all_data st)) (all_data (ingest wb st ys))
      = all_data st) /\
  (forall ys, exists added,
      all_data (ingest wb st ys) = all_data st ++ added /\
      (List.length added <= List.length ys)%nat).
Proof.
  split; [|split].
  - intros y. unfold loop_body. destruct (ingest_year wb y) as [df|e]; simpl.
    + right. now exists df.
    + now left.
  - intros ys. rewrite all_data_ingest.
    rewrite firstn_app, firstn_all, Nat.sub_diag. simpl. apply app_nil_r.
  - intros ys. exists (map (year_table wb) (ingested wb ys)).
    split; [apply all_data_ingest|].
    rewrite length_map. unfold ingested. apply filter_length_le.
Qed.

(** C4: the rows of the combined table are, for each successfully ingested
    year in processing order, that year's commodity rows followed by that
    year's industry rows; each block has as many rows as its sheet, in the
    sheet's order, and a row holds under every label the value it had in its
    normalized sheet, an integer possibly as the float pandas stores in a
    column that also holds floats or missing values. *)
Theorem C4_row_order_preserved (wb : workbook) (ys : list Z) (df : DataFrame) :
  combined wb ys = Ok df ->
  rows df
  = flat_map (fun y => block df wb y Commodity ++ block df wb y Industry)
      (ingested wb ys) /\
  Forall (fun y =>
            forall k,
              List.length (block df wb y k) = nrows (sheet wb y k) /\
              forall r c v,
                field (columns (normalize k y (sheet wb y k))) r c = Some v ->
                field (columns df) (carry df wb y k r) c = Some v \/
                exists z,
                  v = Int z /\
                  field (columns df) (carry df wb y k r) c
                  = Some (Float (float_of_int z) 0))
    (ingested wb ys).
Proof.
  intros H. split; [now apply combined_rows|].
  apply Forall_forall. intros y Hy k. split.
  - unfold block. rewrite length_map. apply rows_normalize.
  - intros r c v F.
    destruct (carry_field wb ys df y k r c v H Hy F) as [K|K]; [now left|].
    destruct v as [s|z|m e|]; simpl in K; eauto.
Qed.

Lemma C4_witness :
  rows df_2015_2016
  = flat_map (fun y => block df_2015_2016 wb_2015_2016 y Commodity
                       ++ block df_2015_2016 wb_2015_2016 y Industry)
      (ingested wb_2015_2016 years).
Proof.
  apply (C4_row_order_preserved wb_2015_2016 years df_2015_2016).
  vm_compute. reflexivity.
Defined.

(** C5 as stated fails: the 2013 commodity sheet is read, yet its two rows
    are not in the combined table, because the industry sheet of 2013 is
    missing and the whole year is skipped. *)
Lemma C5_read_pairs_overcount :
  exists df,
    combined wb_missing_2013 [2012; 2013; 2014] = Ok df /\
    In (2013, Commodity) (read_pairs wb_missing_2013 [2012; 2013; 2014]) /\
    nrows df
    <> list_sum (map (fun p => nrows (sheet wb_missing_2013 (fst p) (snd p)))
                   (read_pairs wb_missing_2013 [2012; 2013; 2014])).
Proof.
  eexists. split; [vm_compute; reflexivity|]. split.
  - vm_compute. tauto.
  - vm_compute. discriminate.
Qed.

(** C5, amended: the row count of the combined table is the sum, over the
    successfully ingested years, of the row counts of the year's two sheets;
    the per-year concatenation and the final concatenation neither add nor
    drop rows. *)
Theorem C5_row_count (wb : workbook) (ys : list Z) (df : DataFrame) :
  combined wb ys = Ok df ->
  nrows df
  = list_sum (map (fun y => nrows (sheet wb y Commodity)
                            + nrows (sheet wb y Industry))%nat
                (ingested wb ys)) /\
  nrows df = list_sum (map nrows (all_data (ingestion_cell wb ys))) /\
  Forall (fun y =>
            nrows (year_table wb y)
            = (nrows (sheet wb y Commodity) + nrows (sheet wb y Industry))%nat)
    (ingested wb ys).
Proof.
  intros H.
  assert (Y : Forall (fun y =>
                        nrows (year_table wb y)
                        = (nrows (sheet wb y Commodity)
                           + nrows (sheet wb y Industry))%nat)
                (ingested wb ys)).
  { apply Forall_forall. intros y Hy.
    destruct (ingested_sheets _ _ _ Hy) as (_ & _ & Hcat).
    apply concat_nrows in Hcat. rewrite Hcat. simpl.
    rewrite !rows_normalize. lia. }
  assert (T : nrows df = list_sum (map nrows (all_data (ingestion_cell wb ys)))).
  { now apply concat_nrows. }
  split; [|split; assumption].
  rewrite T, all_data_ingestion_cell, map_map.
  f_equal. apply map_ext_in. intros y Hy.
  rewrite Forall_forall in Y. now apply Y.
Qed.

Lemma C5_witness :
  nrows df_2015_2016
  = list_sum (map (fun y => nrows (sheet wb_2015_2016 y Commodity)
                            + nrows (sheet wb_2015_2016 y Industry))%nat
                (ingested wb_2015_2016 years)).
Proof.
  apply (C5_row_count wb_2015_2016 years df_2015_2016).
  vm_compute. reflexivity.
Defined.

(** C6: with [years = [2015, 2016]] and a tidy workbook holding the four
    sheets, the combined table is produced, and in each of its rows [Year] is
    2015 or 2016 and [Source] is "Commodity" or "Industry". *)
Theorem C6_year_and_source_values (wb : workbook) :
  (forall y k, In y years -> exists df, read_excel wb (sheet_name y k) = Ok df) ->
  tidy wb years ->
  exists df,
    combined wb years = Ok df /\
    forall r, In r (rows df) ->
      (field (columns df) r "Year" = Some (Int 2015) \/
       field (columns df) r "Year" = Some (Int 2016)) /\
      (field (columns df) r "Source" = Some (Str "Commodity") \/
       field (columns df) r "Source" = Some (Str "Industry")).
Proof.
  intros Hr T.
  assert (I : forall y, In y years -> In y (ingested wb years)).
  { intros y Hy. apply (tidy_year_ok wb years y T Hy). intros k. now apply Hr. }
  destruct (tidy_combined_ok wb years T) as [df Hdf].
  { intros E. specialize (I 2015 (or_introl eq_refl)). now rewrite E in I. }
  exists df. split; [exact Hdf|].
  intros r Hin. rewrite (combined_rows _ _ _ Hdf) in Hin.
  apply in_flat_map in Hin. destruct Hin as (y & Hy & Hb).
  assert (Hy' : In y years) by (apply ingested_In in Hy; tauto).
  apply in_app_or in Hb. destruct Hb as [Hb|Hb];
    destruct (block_tags _ _ _ _ _ _ T Hdf Hy Hb) as [Hs Hyr];
    (split; [destruct Hy' as [<-|[<-|[]]]; auto | auto]).
Qed.

Lemma C6_witness :
  exists df,
    combined wb_2015_2016 years = Ok df /\
    forall r, In r (rows df) ->
      (field (columns df) r "Year" = Some (Int 2015) \/
       field (columns df) r "Year" = Some (Int 2016)) /\
      (field (columns df) r "Source" = Some (Str "Commodity") \/
       field (columns df) r "Source" = Some (Str "Industry")).
Proof.
  apply (C6_year_and_source_values wb_2015_2016).
  - intros y k. apply wb_2015_2016_reads.
  - exact wb_2015_2016_tidy.
Defined.

(** C7: for a tidy workbook with at least one successfully ingested year,
    the combined table is produced and consists, for each successfully
    ingested year in turn, of two row groups: the year's commodity rows, all
    with [Source] "Commodity", then the year's industry rows, all with
    [Source] "Industry"; every row of both groups has [Year] equal to that
    year. *)
Theorem C7_two_tagged_groups_per_year (wb : workbook) (ys : list Z) :
  tidy wb ys ->
  ingested wb ys <> [] ->
  exists df,
    combined wb ys = Ok df /\
    rows df
    = flat_map (fun y => block df wb y Commodity ++ block df wb y Industry)
        (ingested wb ys) /\
    forall y k r,
      In y (ingested wb ys) ->
      In r (block df wb y k) ->
      field (columns df) r "Source" = Some (Str (kind_name k)) /\
      field (columns df) r "Year" = Some (Int y).
Proof.
  intros T NE. destruct (tidy_combined_ok wb ys T NE) as [df Hdf].
  exists df. split; [exact Hdf|]. split; [now apply combined_rows|].
  intros y k r Hy Hr. now apply (block_tags wb ys df y k r).
Qed.

Lemma C7_witness :
  exists df,
    combined wb_2015_2016 years = Ok df /\
    rows df
    = flat_map (fun y => block df wb_2015_2016 y Commodity
                         ++ block df wb_2015_2016 y Industry)
        (ingested wb_2015_2016 years) /\
    forall y k r,
      In y (ingested wb_2015_2016 years) ->
      In r (block df wb_2015_2016 y k) ->
      field (columns df) r "Source" = Some (Str (kind_name k)) /\
      field (columns df) r "Year" = Some (Int y).
Proof.
  apply (C7_two_tagged_groups_per_year wb_2015_2016 years).
  - exact wb_2015_2016_tidy.
  - vm_compute. discriminate.
Defined.

(** C8: the headers of a normalized table are the stripped headers of the
    tagged sheet, renamed; none of them, and no header of any table in the
    accumulator, starts or ends with whitespace. *)
Theorem C8_headers_stripped (wb : workbook) (ys : list Z) :
  (forall k y df,
      columns (normalize k y df)
      = map (rename_label (renames k))
          (map strip
             (columns (setitem "Year" (Int y)
                         (setitem "Source" (Str (kind_name k)) df)))) /\
      Forall (fun c => padded c = false) (columns (normalize k y df))) /\
  Forall (fun df => Forall (fun c => padded c = false) (columns df))
    (all_data (ingestion_cell wb ys)).
Proof.
  assert (N : forall k y df,
             Forall (fun c => padded c = false) (columns (normalize k y df))).
  { intros k y df. unfold normalize, rename, strip_columns. simpl.
    apply Forall_map, Forall_map, Forall_forall. intros c _.
    apply rename_not_padded, strip_not_padded. }
  split.
  - intros k y df. split; [reflexivity | apply N].
  - rewrite all_data_ingestion_cell. apply Forall_map, Forall_forall.
    intros y Hy. destruct (ingested_sheets _ _ _ Hy) as (_ & _ & Hcat).
    apply concat_inv in Hcat. destruct Hcat as (_ & _ & _ & _ & Hsub & _).
    apply Forall_forall. intros c Hc.
    destruct (Hsub c Hc) as (g & Hg & Hcg).
    assert (P : Forall (fun c => padded c = false) (columns g)).
    { destruct Hg as [<-|[<-|[]]]; apply N. }
    rewrite Forall_forall in P. now apply P.
Qed.

(** ** The two schemas *)

Lemma fresh_not_reserved (common : list label) (c : label) :
  fresh common -> In c common -> ~ In c reserved.
Proof.
  unfold fresh. rewrite forallb_forall. intros F Hc.
  apply mem_not_In, negb_true_iff, F, Hc.
Qed.

Lemma schema_not_tag (k : kind) (common : list label) (c : label) :
  fresh common -> In c ["Source"; "Year"] -> ~ In c (schema k common).
Proof.
  intros F Hc Hin.
  destruct Hin as [E|[E|Hin]].
  - destruct k, Hc as [<-|[<-|[]]]; discriminate.
  - destruct k, Hc as [<-|[<-|[]]]; discriminate.
  - apply (fresh_not_reserved _ _ F Hin).
    destruct Hc as [<-|[<-|[]]]; simpl; tauto.
Qed.

Lemma rename_unreserved (k : kind) (c : label) :
  ~ In c reserved -> rename_label (renames k) c = c.
Proof.
  intros N. destruct k; cbn [renames rename_label];
    repeat match goal with
           | |- context [String.eqb ?a c] =>
               let E := fresh "E" in
               destruct (String.eqb a c) eqn:E;
               [apply String.eqb_eq in E; subst c; exfalso; apply N; simpl; tauto|]
           end; reflexivity.
Qed.

Lemma rename_common (k : kind) (common : list label) :
  fresh common -> map (rename_label (renames k)) common = common.
Proof.
  intros F. rewrite <- (map_id common) at 2. apply map_ext_in.
  intros c Hc. apply rename_unreserved. now apply (fresh_not_reserved common).
Qed.

Lemma rename_schema (k : kind) (common : list label) :
  fresh common ->
  map (rename_label (renames k)) (schema k common) = unified common.
Proof.
  intros F. unfold schema, unified. simpl map.
  rewrite (rename_common k common F). destruct k; reflexivity.
Qed.

Lemma normalize_columns_schema (k : kind) (y : Z) (df : DataFrame)
  (common : list label) :
  fresh common ->
  map strip (columns df) = schema k common ->
  columns (normalize k y df) = unified common ++ ["Source"; "Year"].
Proof.
  intros F H.
  assert (T : forall c, In c ["Source"; "Year"] -> ~ In c (columns df)).
  { intros c Hc Hin. apply (schema_not_tag k common c F Hc).
    rewrite <- H. apply (in_map strip) in Hin.
    destruct Hc as [<-|[<-|[]]]; exact Hin. }
  assert (S : mem "Source" (columns df) = false).
  { apply mem_not_In, T. simpl. tauto. }
  assert (Y : mem "Year" (columns df ++ ["Source"]) = false).
  { apply mem_not_In. intros Hin. apply in_app_or in Hin.
    destruct Hin as [Hin|[E|[]]]; [|discriminate].
    apply (T "Year"); [simpl; tauto | exact Hin]. }
  set (v := Str (kind_name k)).
  assert (C1 : columns (setitem "Source" v df) = columns df ++ ["Source"]).
  { unfold setitem. now rewrite S. }
  assert (C2 : columns (setitem "Year" (Int y) (setitem "Source" v df))
               = columns df ++ ["Source"; "Year"]).
  { unfold setitem at 1. rewrite C1, Y. cbn [columns].
    now rewrite <- app_assoc. }
  unfold normalize, rename, strip_columns. cbn [columns]. fold v.
  rewrite C2, !map_app. apply f_equal2.
  - rewrite <- (rename_schema k common F). apply f_equal. exact H.
  - destruct k; reflexivity.
Qed.

(** A rectangular sheet whose stripped header is one of the two schemas, with
    pairwise distinct shared columns, keeps distinct labels through the
    normalization. *)
Lemma schema_labels_distinct (k : kind) (y : Z) (df : DataFrame)
  (common : list label) :
  fresh common ->
  NoDup common ->
  map strip (columns df) = schema k common ->
  NoDup (columns (normalize k y df)).
Proof.
  intros F N H. rewrite (normalize_columns_schema k y df common F H).
  assert (R : forall c, In c reserved -> ~ In c common).
  { intros c Hc Hin. exact (fresh_not_reserved common c F Hin Hc). }
  assert (NT : NoDup (common ++ ["Source"; "Year"])).
  { apply NoDup_app; [exact N | |].
    - repeat constructor; simpl; intuition discriminate.
    - intros c Hc Ht. apply (R c); [|exact Hc].
      destruct Ht as [<-|[<-|[]]]; simpl; tauto. }
  unfold unified. simpl. constructor; [|constructor; [|exact NT]].
  - intros [E|Hin]; [discriminate|]. apply in_app_or in Hin.
    destruct Hin as [Hin|[E|[E|[]]]]; try discriminate.
    apply (R "Code"); [simpl; tauto | exact Hin].
  - intros Hin. apply in_app_or in Hin.
    destruct Hin as [Hin|[E|[E|[]]]]; try discriminate.
    apply (R "Name"); [simpl; tauto | exact Hin].
Qed.

(** C2: the renaming of a commodity table sends "Commodity Code" to "Code"
    and "Commodity Name" to "Name" and nothing else anywhere, likewise for an
    industry table; on each of the two schemas it is defined on every header
    and one-to-one onto the unified header; and a commodity sheet and an
    industry sheet whose stripped headers are the two schemas come out of the
    loop's normalization with the same column names. *)
Theorem C2_renaming_unifies_schemas (common : list label) :
  fresh common ->
  (renames Commodity
   = [("Commodity Code", "Code"); ("Commodity Name", "Name")] /\
   renames Industry
   = [("Industry Code", "Code"); ("Industry Name", "Name")]) /\
  (forall k c,
      rename_label (renames k) c
      = if String.eqb (kind_name k ++ " Code") c then "Code"
        else if String.eqb (kind_name k ++ " Name") c then "Name"
        else c) /\
  (forall k,
      map (rename_label (renames k)) (schema k common) = unified common /\
      forall a b,
        In a (schema k common) -> In b (schema k common) ->
        rename_label (renames k) a = rename_label (renames k) b -> a = b) /\
  (forall y com ind,
      map strip (columns com) = schema Commodity common ->
      map strip (columns ind) = schema Industry common ->
      columns (normalize Commodity y com)
      = unified common ++ ["Source"; "Year"] /\
      columns (normalize Industry y ind)
      = columns (normalize Commodity y com) /\
      forall c,
        In c (columns (normalize Commodity y com))
        <-> In c (columns (normalize Industry y ind))).
Proof.
  intros F. split; [split; reflexivity|].
  split; [intros [] c; reflexivity|].
  split.
  - intros k. split; [now apply rename_schema|].
    assert (U : forall c, In c common -> rename_label (renames k) c = c).
    { intros c Hc. apply rename_unreserved.
      now apply (fresh_not_reserved common). }
    assert (R : forall c, In c common -> c <> "Code" /\ c <> "Name").
    { intros c Hc. pose proof (fresh_not_reserved common c F Hc) as N.
      split; intros ->; apply N; simpl; tauto. }
    intros a b [<-|[<-|Ha]] [<-|[<-|Hb]] E; try reflexivity;
      try (destruct k; discriminate E).
    + rewrite (U b Hb) in E. destruct (R b Hb). destruct k; now subst b.
    + rewrite (U b Hb) in E. destruct (R b Hb). destruct k; now subst b.
    + rewrite (U a Ha) in E. destruct (R a Ha). destruct k; now subst a.
    + rewrite (U a Ha) in E. destruct (R a Ha). destruct k; now subst a.
    + now rewrite (U a Ha), (U b Hb) in E.
  - intros y com ind Hc Hi.
    rewrite (normalize_columns_schema Commodity y com common F Hc).
    rewrite (normalize_columns_schema Industry y ind common F Hi).
    split; [reflexivity|]. split; [reflexivity | tauto].
Qed.

Lemma C2_witness :
  columns (normalize Industry 2015 (displayed_sheet Industry))
  = columns (normalize Commodity 2015 (displayed_sheet Commodity)).
Proof.
  apply (C2_renaming_unifies_schemas detail_columns eq_refl);
    reflexivity.
Defined.

(** ** Further properties of the loop *)

Lemma stdout_ingest (wb : workbook) (st : state) (ys : list Z) :
  stdout (ingest wb st ys) = stdout st ++ printed wb ys.
Proof.
  revert st. induction ys as [|y ys IH]; intros st.
  - simpl. now rewrite app_nil_r.
  - rewrite ingest_cons, IH. unfold loop_body, printed. simpl.
    destruct (ingest_year wb y); simpl; [reflexivity|].
    now rewrite <- app_assoc.
Qed.

Lemma ingestion_cell_eq (wb : workbook) (ys : list Z) :
  ingestion_cell wb ys
  = mkState (map (year_table wb) (ingested wb ys)) (printed wb ys).
Proof.
  pose proof (all_data_ingestion_cell wb ys) as A.
  pose proof (stdout_ingest wb (mkState [] []) ys) as S.
  unfold ingestion_cell in *. destruct (ingest wb (mkState [] []) ys).
  simpl in *. now subst.
Qed.

Lemma read_excel_sheet_names (wb : workbook) (name : string) :
  (exists df, read_excel wb name = Ok df) <-> In name (sheet_names wb).
Proof.
  unfold read_excel, sheet_names.
  induction wb as [|[n f] wb IH]; simpl.
  - split; [intros [df H]; discriminate | tauto].
  - destruct (String.eqb n name) eqn:E.
    + apply String.eqb_eq in E. split; [auto | intros _; now exists f].
    + apply String.eqb_neq in E. rewrite IH. tauto.
Qed.

Lemma read_excel_missing (wb : workbook) (name : string) :
  ~ In name (sheet_names wb) ->
  read_excel wb name
  = Raise (ValueError ("Worksheet named '" ++ name ++ "' not found")%string).
Proof.
  intros N. unfold read_excel.
  destruct (find_sheet wb name) as [f|] eqn:E; [|reflexivity].
  exfalso. apply N, read_excel_sheet_names. exists f.
  unfold read_excel. now rewrite E.
Qed.

(** Whatever else a workbook holds, the loop sees only the sheets named
    after its years: two workbooks that give the same answer for the two
    sheet names of every year of [ys] leave the same accumulator and the same
    printed lines. *)
Theorem ingestion_depends_on_year_sheets (wb1 wb2 : workbook) (ys : list Z) :
  (forall y k, In y ys ->
     read_excel wb1 (sheet_name y k) = read_excel wb2 (sheet_name y k)) ->
  ingestion_cell wb1 ys = ingestion_cell wb2 ys.
Proof.
  intros H.
  assert (Y : forall y, In y ys -> ingest_year wb1 y = ingest_year wb2 y).
  { intros y Hy. pose proof (H y Commodity Hy) as Hc.
    pose proof (H y Industry Hy) as Hi. revert Hc Hi.
    unfold ingest_year, sheet_name, kind_name. simpl append.
    now intros -> ->. }
  unfold ingestion_cell. generalize (mkState [] []).
  induction ys as [|y ys IH]; intros st; [reflexivity|].
  rewrite !ingest_cons.
  assert (L : loop_body wb1 st y = loop_body wb2 st y).
  { unfold loop_body. now rewrite (Y y (or_introl eq_refl)). }
  rewrite L. apply IH; intros; [apply H | apply Y]; now right.
Qed.

Lemma ingestion_depends_on_year_sheets_witness :
  ingestion_cell wb_with_cover years = ingestion_cell wb_2015_2016 years.
Proof.
  apply (ingestion_depends_on_year_sheets wb_with_cover wb_2015_2016 years).
  intros y k [<-|[<-|[]]]; destruct k; reflexivity.
Defined.

(** Every year of the loop has exactly one outcome, an appended table or a
    printed line: the lines are those of the raising years in order, the
    entries those of the other years in order, and together they are as many
    as the years. *)
Theorem one_outcome_per_year (wb : workbook) (ys : list Z) :
  stdout (ingestion_cell wb ys) = printed wb ys /\
  List.length (printed wb ys)
  = List.length (filter (fun y => negb (is_ok (ingest_year wb y))) ys) /\
  (List.length (all_data (ingestion_cell wb ys))
   + List.length (stdout (ingestion_cell wb ys)) = List.length ys)%nat.
Proof.
  rewrite ingestion_cell_eq. simpl. split; [reflexivity|].
  rewrite length_map. unfold printed, ingested.
  induction ys as [|y ys [IH1 IH2]]; simpl; [auto|].
  destruct (ingest_year wb y); simpl; rewrite ?IH1; split; auto; lia.
Qed.

(** The iterations do not influence one another: running the loop on two
    year lists in a row gives the entries and the printed lines of the first
    followed by those of the second. *)
Theorem ingestion_of_appended_years (wb : workbook) (a b : list Z) :
  ingestion_cell wb (a ++ b)
  = mkState
      (all_data (ingestion_cell wb a) ++ all_data (ingestion_cell wb b))
      (stdout (ingestion_cell wb a) ++ stdout (ingestion_cell wb b)).
Proof.
  rewrite !ingestion_cell_eq. simpl.
  rewrite ingested_app, map_app. unfold printed. now rewrite flat_map_app.
Qed.

(** The exceptions of the [try] body: a missing commodity sheet is reported
    first, with its name in the message, even when the industry sheet is
    missing too; a missing industry sheet is reported when the commodity
    sheet is there; with both sheets in the workbook the only exception left
    is the reindexing error of the concatenation. *)
Theorem ingest_year_exceptions (wb : workbook) (y : Z) :
  (~ In (sheet_name y Commodity) (sheet_names wb) ->
   ingest_year wb y
   = Raise (ValueError ("Worksheet named '" ++ sheet_name y Commodity
                        ++ "' not found")%string)) /\
  (In (sheet_name y Commodity) (sheet_names wb) ->
   ~ In (sheet_name y Industry) (sheet_names wb) ->
   ingest_year wb y
   = Raise (ValueError ("Worksheet named '" ++ sheet_name y Industry
                        ++ "' not found")%string)) /\
  (In (sheet_name y Commodity) (sheet_names wb) ->
   In (sheet_name y Industry) (sheet_names wb) ->
   forall e, ingest_year wb y = Raise e -> e = InvalidIndexError reindex_msg).
Proof.
  split; [|split].
  - intros N. apply ingest_year_raises. left. now apply read_excel_missing.
  - intros Hc N. apply read_excel_sheet_names in Hc. destruct Hc as [c Hc].
    apply ingest_year_raises. right. exists c. split; [exact Hc|].
    left. now apply read_excel_missing.
  - intros Hc Hi e H.
    apply read_excel_sheet_names in Hc. destruct Hc as [c Hc].
    apply read_excel_sheet_names in Hi. destruct Hi as [i Hi].
    rewrite (ingest_year_reads _ _ _ _ Hc Hi) in H. revert H.
    unfold concat. destruct (forallb _ _); [discriminate|].
    now intros [= <-].
Qed.

Lemma ingest_year_exceptions_witness :
  ingest_year wb_missing_2013 2013
  = Raise (ValueError "Worksheet named '2013_Detail_Industry' not found") /\
  ingest_year wb_empty 2013
  = Raise (ValueError "Worksheet named '2013_Detail_Commodity' not found") /\
  forall e, ingest_year wb_clash 2015 = Raise e ->
            e = InvalidIndexError reindex_msg.
Proof.
  split; [|split].
  - apply (ingest_year_exceptions wb_missing_2013 2013).
    + vm_compute. tauto.
    + vm_compute. intuition discriminate.
  - apply (ingest_year_exceptions wb_empty 2013). vm_compute. tauto.
  - apply (ingest_year_exceptions wb_clash 2015); vm_compute; tauto.
Defined.

(** [all_data[-1]] raises IndexError exactly when no year was ingested, and
    otherwise is the entry of the last successfully ingested year, whatever
    years were skipped after it. *)
Theorem last_entry_of_ingestion (wb : workbook) (ys : list Z) :
  (ingested wb ys = [] <->
   last_entry (ingestion_cell wb ys)
   = Raise (IndexError "list index out of range")) /\
  (forall before y,
      ingested wb ys = before ++ [y] ->
      last_entry (ingestion_cell wb ys) = Ok (year_table wb y)).
Proof.
  unfold last_entry. rewrite all_data_ingestion_cell. split.
  - destruct (ingested wb ys) as [|y l] eqn:E using rev_ind.
    + simpl. tauto.
    + rewrite map_app, rev_app_distr. simpl. split; [|discriminate].
      intros H. now destruct l.
  - intros before y ->. now rewrite map_app, rev_app_distr.
Qed.

Lemma last_entry_of_ingestion_witness :
  last_entry (ingestion_cell wb_missing_2013 [2012; 2013; 2014; 2015])
  = Ok (year_table wb_missing_2013 2014).
Proof.
  apply (last_entry_of_ingestion wb_missing_2013 [2012; 2013; 2014; 2015])
    with (before := [2012]).
  reflexivity.
Defined.

(** The cells before the loop read the two sheets of the first year outside
    any [try]: when they run through, the year list is not empty and the
    first iteration of the loop concatenates the normalized forms of exactly
    the tables [df_1] and [df_2], so it cannot fail on a missing sheet; when
    a sheet of the first year is missing they raise, before the loop is
    reached. *)
Theorem preview_cells_and_first_year (wb : workbook) (ys : list Z) :
  (forall df_1 df_2,
      preview_cells wb ys = Ok (df_1, df_2) ->
      exists y0 rest,
        ys = y0 :: rest /\
        ingest_year wb y0
        = concat [normalize Commodity y0 df_1; normalize Industry y0 df_2]) /\
  (forall y0 rest k,
      ys = y0 :: rest ->
      ~ In (sheet_name y0 k) (sheet_names wb) ->
      exists e, preview_cells wb ys = Raise e).
Proof.
  unfold preview_cells. split.
  - intros df_1 df_2. destruct (read_first wb); [|discriminate]. simpl.
    destruct ys as [|y0 rest]; [discriminate|]. simpl.
    destruct (read_excel wb (str_int y0 ++ "_Detail_Commodity")) as [c|]
      eqn:Hc; [|discriminate]. simpl.
    destruct (read_excel wb (str_int y0 ++ "_Detail_Industry")) as [i|]
      eqn:Hi; [|discriminate]. simpl.
    intros [= <- <-]. exists y0, rest. split; [reflexivity|].
    now apply ingest_year_reads.
  - intros y0 rest k -> N. destruct (read_first wb); [|eexists; reflexivity].
    simpl. apply read_excel_missing in N.
    destruct k; unfold sheet_name, kind_name in N; simpl append in N.
    + rewrite N. eexists. reflexivity.
    + destruct (read_excel wb (str_int y0 ++ "_Detail_Commodity"));
        simpl; [rewrite N|]; eexists; reflexivity.
Qed.

Lemma preview_cells_and_first_year_witness :
  exists y0 rest,
    years = y0 :: rest /\
    ingest_year wb_with_cover y0
    = concat [normalize Commodity y0
                (sample_sheet Commodity "1111A0" "Fresh soybeans");
              normalize Industry y0
                (sample_sheet Industry "1111A0" "Oilseed farming")].
Proof.
  apply (preview_cells_and_first_year wb_with_cover years).
  reflexivity.
Defined.

(** ** Further properties of the header clean-up *)

Lemma lstrip_split (s : string) :
  exists pre, s = (pre ++ lstrip s)%string /\ all_space pre = true.
Proof.
  induction s as [|c s (pre & E & A)]; [now exists EmptyString|]. simpl.
  destruct (isspace c) eqn:C.
  - exists (String c pre). simpl. rewrite C, A. split; [now f_equal | reflexivity].
  - now exists EmptyString.
Qed.

Lemma rstrip_split (s : string) :
  exists post, s = (rstrip s ++ post)%string /\ all_space post = true.
Proof.
  induction s as [|c s (post & E & A)]; [now exists EmptyString|]. simpl.
  destruct (rstrip s) as [|d t] eqn:R.
  - simpl in E. subst post. destruct (isspace c) eqn:C.
    + exists (String c s). simpl. now rewrite C, A.
    + exists s. now split.
  - exists post. split; [simpl; now f_equal | exact A].
Qed.

Lemma lstrip_fixed (s : string) :
  space_at (first_char s) = false -> lstrip s = s.
Proof. destruct s as [|c s]; simpl; [reflexivity | now intros ->]. Qed.

Lemma rstrip_fixed (s : string) :
  space_at (last_char s) = false -> rstrip s = s.
Proof.
  induction s as [|c s IH]; simpl; [reflexivity|].
  destruct s as [|d s].
  - simpl. now intros ->.
  - intros H. rewrite (IH H). reflexivity.
Qed.

(** [strip] removes whitespace at the two ends and nothing else: the string
    is its stripped form between a prefix and a suffix made of whitespace
    only; a string that neither starts nor ends with whitespace, whatever it
    has inside, is exactly the strings [strip] leaves alone, so stripping
    twice is stripping once. *)
Theorem strip_only_trims (s : string) :
  (exists pre post,
      s = (pre ++ strip s ++ post)%string /\
      all_space pre = true /\ all_space post = true) /\
  (strip s = s <-> padded s = false) /\
  strip (strip s) = strip s.
Proof.
  assert (F : forall t, padded t = false -> strip t = t).
  { intros t P. unfold padded in P. apply orb_false_iff in P.
    destruct P as [P1 P2]. unfold strip. rewrite (lstrip_fixed t P1).
    now apply rstrip_fixed. }
  split; [|split].
  - destruct (lstrip_split s) as (pre & E1 & A1).
    destruct (rstrip_split (lstrip s)) as (post & E2 & A2).
    exists pre, post. unfold strip. rewrite <- E2. auto.
  - split; [|apply F]. intros E. rewrite <- E. apply strip_not_padded.
  - apply F, strip_not_padded.
Qed.

(** After the normalization a table has no column under the names its
    renaming replaces, padded or not in the sheet: a commodity table has no
    "Commodity Code" and no "Commodity Name", an industry table no
    "Industry Code" and no "Industry Name". *)
Theorem renamed_labels_are_gone (k : kind) (y : Z) (df : DataFrame) :
  ~ In (kind_name k ++ " Code")%string (columns (normalize k y df)) /\
  ~ In (kind_name k ++ " Name")%string (columns (normalize k y df)).
Proof.
  assert (R : forall c,
             rename_label (renames k) c <> (kind_name k ++ " Code")%string /\
             rename_label (renames k) c <> (kind_name k ++ " Name")%string).
  { intros c. destruct k; cbn [renames rename_label kind_name]; simpl append;
      repeat match goal with
             | |- context [String.eqb ?a c] =>
                 let E := fresh "E" in
                 destruct (String.eqb a c) eqn:E;
                 [|apply String.eqb_neq in E]
             end; split; solve [discriminate | congruence]. }
  unfold normalize, rename. cbn [columns].
  split; intros H; apply in_map_iff in H; destruct H as (c & E & _);
    destruct (R c); contradiction.
Qed.

(** ** Sheet names *)

Lemma uint_no_underscore (d : Decimal.uint) :
  has_char "_" (NilEmpty.string_of_uint d) = false.
Proof. induction d; simpl; auto. Qed.

Lemma str_int_no_underscore (n : Z) : has_char "_" (str_int n) = false.
Proof.
  unfold str_int, NilZero.string_of_int, NilZero.string_of_uint.
  destruct (Z.to_int n) as [d|d]; destruct d; simpl;
    auto using uint_no_underscore.
Qed.

Lemma str_int_inj (n m : Z) : str_int n = str_int m -> n = m.
Proof.
  unfold str_int. intros E.
  assert (P : forall z, NilZero.int_of_string (NilZero.string_of_int (Z.to_int z))
                        = Some (Z.to_int z)).
  { intros z. apply NilZero.isi; destruct z; simpl; try discriminate;
      intros [= H]; revert H; apply DecimalPos.Unsigned.to_uint_nonnil. }
  pose proof (P n) as Pn. rewrite E, P in Pn. injection Pn as Pn.
  rewrite <- (DecimalZ.of_to n), <- (DecimalZ.of_to m). now f_equal.
Qed.

Lemma split_at_underscore (a b s t : string) :
  has_char "_" a = false -> has_char "_" b = false ->
  (a ++ String "_" s)%string = (b ++ String "_" t)%string ->
  a = b /\ s = t.
Proof.
  revert b. induction a as [|c a IH]; intros [|d b]; simpl.
  - intros _ _ [= ->]. auto.
  - intros _ H [= <- _]. discriminate.
  - intros H _ [= -> _]. discriminate.
  - intros Ha Hb [= -> E]. apply orb_false_iff in Ha, Hb.
    destruct (IH b (proj2 Ha) (proj2 Hb) E) as [-> ->]. auto.
Qed.

(** The sheet names the loop builds are distinct for distinct years and
    kinds, so no two reads of the loop ask for the same sheet unless a year
    is listed twice. *)
Theorem sheet_name_inj (y y' : Z) (k k' : kind) :
  sheet_name y k = sheet_name y' k' -> y = y' /\ k = k'.
Proof.
  unfold sheet_name. simpl append. intros E.
  apply split_at_underscore in E; try apply str_int_no_underscore.
  destruct E as [E1 E2]. split; [now apply str_int_inj|].
  destruct k, k'; [reflexivity | discriminate | discriminate | reflexivity].
Qed.

Lemma sheet_name_inj_witness : 2015 = 2015 /\ Commodity = Commodity.
Proof. apply (sheet_name_inj 2015 2015 Commodity Commodity). reflexivity. Defined.

(** ** Further properties of the tables *)

Lemma normalize_has_tags (k : kind) (y : Z) (df : DataFrame) :
  In "Source" (columns (normalize k y df)) /\
  In "Year" (columns (normalize k y df)).
Proof.
  set (g := fun c => rename_label (renames k) (strip c)).
  assert (C : columns (normalize k y df)
              = map g (columns (setitem "Year" (Int y)
                                  (setitem "Source" (Str (kind_name k)) df)))).
  { unfold normalize, rename, strip_columns. simpl. now rewrite map_map. }
  assert (S : forall c v t, In c (columns (setitem c v t))).
  { intros c v t. unfold setitem. destruct (mem c (columns t)) eqn:M; simpl.
    - now apply mem_In.
    - apply in_or_app. right. now left. }
  assert (K : forall c c' v t, In c (columns t) -> In c (columns (setitem c' v t))).
  { intros c c' v t H. unfold setitem. destruct (mem c' (columns t)); simpl;
      [exact H | apply in_or_app; now left]. }
  assert (Gs : g "Source" = "Source") by (unfold g; destruct k; reflexivity).
  assert (Gy : g "Year" = "Year") by (unfold g; destruct k; reflexivity).
  rewrite C. split.
  - rewrite <- Gs at 1. apply in_map, K, S.
  - rewrite <- Gy at 1. apply in_map, S.
Qed.

Lemma normalize_not_padded (k : kind) (y : Z) (df : DataFrame) (c : label) :
  In c (columns (normalize k y df)) -> padded c = false.
Proof.
  unfold normalize, rename, strip_columns. cbn [columns]. intros H.
  apply in_map_iff in H. destruct H as (c1 & <- & H).
  apply in_map_iff in H. destruct H as (c0 & <- & _).
  apply rename_not_padded, strip_not_padded.
Qed.

(** The header of the combined table ([df.columns]) is the union of the
    headers of the normalized sheets of the ingested years: it holds "Source"
    and "Year", every label of every such sheet, nothing else, and none of
    its labels starts or ends with whitespace. *)
Theorem combined_header (wb : workbook) (ys : list Z) (df : DataFrame) :
  combined wb ys = Ok df ->
  In "Source" (columns df) /\
  In "Year" (columns df) /\
  (forall c,
      In c (columns df) <->
      exists y k,
        In y (ingested wb ys) /\
        In c (columns (normalize k y (sheet wb y k)))) /\
  Forall (fun c => padded c = false) (columns df).
Proof.
  intros H. pose proof H as H0. rewrite combined_eq in H.
  apply concat_inv in H. destruct H as (NE & _ & _ & Up & Down & _).
  assert (U : forall c,
             In c (columns df) <->
             exists y k,
               In y (ingested wb ys) /\
               In c (columns (normalize k y (sheet wb y k)))).
  { intros c. split.
    - intros Hc. destruct (Down c Hc) as (g & Hg & Hcg).
      apply in_map_iff in Hg. destruct Hg as (y & <- & Hy).
      destruct (ingested_sheets _ _ _ Hy) as (_ & _ & Hcat).
      apply concat_inv in Hcat. destruct Hcat as (_ & _ & _ & _ & D & _).
      destruct (D c Hcg) as (n & Hn & Hcn). exists y.
      destruct Hn as [<-|[<-|[]]]; [exists Commodity | exists Industry]; auto.
    - intros (y & k & Hy & Hc).
      destruct (ingested_sheets _ _ _ Hy) as (_ & _ & Hcat).
      apply concat_inv in Hcat. destruct Hcat as (_ & _ & _ & U1 & _).
      apply (Up (year_table wb y)); [now apply in_map|].
      apply (U1 (normalize k y (sheet wb y k))); [|exact Hc].
      destruct k; simpl; auto. }
  assert (T : exists y, In y (ingested wb ys)).
  { destruct (ingested wb ys) as [|y l]; [now destruct NE|].
    exists y. now left. }
  destruct T as [y Hy].
  split; [|split; [|split; [exact U|]]].
  - apply U. exists y, Commodity. split; [exact Hy | apply normalize_has_tags].
  - apply U. exists y, Commodity. split; [exact Hy | apply normalize_has_tags].
  - apply Forall_forall. intros c Hc. apply U in Hc.
    destruct Hc as (y' & k & _ & Hc).
    eapply normalize_not_padded, Hc.
Qed.

Lemma combined_header_witness :
  In "Source" (columns df_2015_2016) /\ In "Year" (columns df_2015_2016).
Proof.
  destruct (combined_header wb_2015_2016 years df_2015_2016 eq_refl)
    as (S & Y & _).
  exact (conj S Y).
Defined.

(** ** Sheets in the format of the two schemas *)












(** ** Missing values *)

(** A column that only one of the two sheets of a year has after the
    normalization is filled with the missing value in the rows of the other
    sheet: in the combined table every row of the other sheet's block has NaN
    under that label. *)
Theorem unmatched_column_is_missing (wb : workbook) (ys : list Z)
  (df : DataFrame) (y : Z) (k k' : kind) (c : label) :
  combined wb ys = Ok df ->
  In y (ingested wb ys) ->
  In c (columns (normalize k y (sheet wb y k))) ->
  ~ In c (columns (normalize k' y (sheet wb y k'))) ->
  forall r, In r (block df wb y k') -> field (columns df) r c = Some NaN.
Proof.
  intros H Hy Hin Hout r Hr.
  unfold block in Hr. apply in_map_iff in Hr. destruct Hr as (r0 & <- & _).
  rewrite combined_eq in H.
  destruct (ingested_sheets _ _ _ Hy) as (_ & _ & Hcat).
  pose proof Hcat as Hcat'.
  apply concat_inv in Hcat'. destruct Hcat' as (_ & _ & _ & In1 & _).
  assert (Hc : In c (columns (year_table wb y))).
  { apply (In1 (normalize k y (sheet wb y k))); [|exact Hin].
    destruct k; simpl; auto. }
  assert (F1 : field (columns (year_table wb y))
                 (settle (normalize k' y (sheet wb y k')) (year_table wb y) r0) c
               = Some NaN).
  { unfold settle. apply field_upcast_row_fixed; [reflexivity|].
    unfold align.
    destruct (labels_eqb (columns (normalize k' y (sheet wb y k')))
                (columns (year_table wb y))) eqn:E.
    - apply labels_eqb_eq in E. rewrite E in Hout. contradiction.
    - rewrite field_reindex by exact Hc.
      destruct (field (columns (normalize k' y (sheet wb y k'))) r0 c) eqn:Fd;
        [|reflexivity].
      exfalso. apply Hout. eapply field_Some_In, Fd. }
  assert (Hyt : In (year_table wb y) (map (year_table wb) (ingested wb ys))).
  { now apply in_map. }
  unfold carry.
  destruct (settle_field _ _ _ _ _ _ H Hyt F1) as [K|K]; exact K.
Qed.

Lemma unmatched_column_is_missing_witness :
  exists df,
    combined wb_uneven [2015] = Ok df /\
    forall r, In r (block df wb_uneven 2015 Industry) ->
              field (columns df) r "Substance" = Some NaN.
Proof.
  eexists. split; [vm_compute; reflexivity|].
  apply (unmatched_column_is_missing wb_uneven [2015] _ 2015 Commodity Industry
           "Substance").
  - reflexivity.
  - vm_compute. tauto.
  - vm_compute. tauto.
  - vm_compute. intuition discriminate.
Defined.

Lemma field_nth (cols : list label) (r : list cell) (j : nat) (c : label) :
  NoDup cols -> nth_error cols j = Some c ->
  field cols r c = nth_error r j.
Proof.
  revert r j. induction cols as [|l cols IH]; intros r j N H.
  - destruct j; discriminate.
  - inversion N as [|? ? Hnot N']; subst. destruct j as [|j]; simpl in H.
    + injection H as ->. destruct r; simpl; [reflexivity|].
      now rewrite String.eqb_refl.
    + destruct r as [|x r]; simpl; [reflexivity|].
      destruct (String.eqb l c) eqn:E.
      * apply String.eqb_eq in E. subst. exfalso. apply Hnot.
        eapply nth_error_In, H.
      * now apply IH.
Qed.

Lemma In_combine_seq (cols : list label) (j s : nat) (c : label) :
  nth_error cols j = Some c ->
  In ((s + j)%nat, c) (combine (seq s (List.length cols)) cols).
Proof.
  revert j s. induction cols as [|l cols IH]; intros j s H.
  - destruct j; discriminate.
  - destruct j as [|j]; simpl in *.
    + injection H as ->. left. f_equal. lia.
    + right. replace (s + S j)%nat with (S s + j)%nat by lia. now apply IH.
Qed.

Lemma filter_none {A : Type} (f : A -> bool) (l : list A) :
  (forall x, In x l -> f x = false) -> filter f l = [].
Proof.
  induction l as [|a l IH]; simpl; intros H; [reflexivity|].
  rewrite (H a) by auto. apply IH. auto.
Qed.

Lemma combined_has_tags (wb : workbook) (ys : list Z) (df : DataFrame) :
  combined wb ys = Ok df ->
  In "Source" (columns df) /\ In "Year" (columns df).
Proof.
  rewrite combined_eq. intros H. apply concat_inv in H.
  destruct H as (NE & _ & _ & Up & _).
  destruct (ingested wb ys) as [|y l] eqn:E; [now destruct NE|].
  assert (Hy : In y (ingested wb ys)) by (rewrite E; now left).
  destruct (ingested_sheets _ _ _ Hy) as (_ & _ & Hcat).
  apply concat_inv in Hcat. destruct Hcat as (_ & _ & _ & U1 & _).
  destruct (normalize_has_tags Commodity y (sheet wb y Commodity)) as [S Y].
  split; apply (Up (year_table wb y)); try (now left);
    apply (U1 (normalize Commodity y (sheet wb y Commodity)));
    solve [now left | assumption].
Qed.

(** [df.isnull().sum()] reports no missing value for "Source" and none for
    "Year" on the combined table of a tidy workbook, even when the sheets'
    other columns differ and are filled with NaN. *)
Theorem tags_are_never_missing (wb : workbook) (ys : list Z) (df : DataFrame) :
  tidy wb ys ->
  combined wb ys = Ok df ->
  In ("Source", 0%nat) (isnull_sum df) /\ In ("Year", 0%nat) (isnull_sum df).
Proof.
  intros T H.
  assert (N : NoDup (columns df)).
  { pose proof H as H'. rewrite combined_eq in H'. apply concat_inv in H'.
    destruct H' as (_ & _ & _ & _ & _ & N). apply N.
    apply Forall_forall. intros g Hg. apply in_map_iff in Hg.
    destruct Hg as (y & <- & Hy). eapply tidy_year_table; eassumption. }
  assert (Tags : forall r, In r (rows df) ->
                   (exists s, field (columns df) r "Source" = Some (Str s)) /\
                   (exists z, field (columns df) r "Year" = Some (Int z))).
  { intros r Hr. rewrite (combined_rows _ _ _ H) in Hr.
    apply in_flat_map in Hr. destruct Hr as (y & Hy & Hb).
    apply in_app_or in Hb. destruct Hb as [Hb|Hb];
      destruct (block_tags _ _ _ _ _ _ T H Hy Hb) as [Hs Hyr]; eauto. }
  assert (Z : forall c,
             In c (columns df) ->
             (forall r, In r (rows df) ->
                exists v, field (columns df) r c = Some v /\ is_null v = false) ->
             In (c, 0%nat) (isnull_sum df)).
  { intros c Hc Hv. apply In_nth_error in Hc. destruct Hc as [j Hj].
    unfold isnull_sum. apply in_map_iff. exists (j, c). split.
    - simpl. f_equal.
      replace (filter (fun r => is_null (nth j r NaN)) (rows df)) with
        (@nil (list cell)); [reflexivity|].
      symmetry. apply filter_none. intros r Hr.
      destruct (Hv r Hr) as (v & Fv & Nv).
      rewrite (field_nth _ _ _ _ N Hj) in Fv.
      now rewrite (nth_error_nth _ _ NaN Fv).
    - apply (In_combine_seq _ j 0%nat c Hj). }
  destruct (combined_has_tags _ _ _ H) as [Hs Hy].
  split; apply Z; auto; intros r Hr; destruct (Tags r Hr) as [[s Fs] [z Fz]];
    eexists; split; eauto.
Qed.

Lemma tags_are_never_missing_witness :
  In ("Source", 0%nat) (isnull_sum df_2015_2016) /\
  In ("Year", 0%nat) (isnull_sum df_2015_2016).
Proof.
  apply (tags_are_never_missing wb_2015_2016 years df_2015_2016).
  - exact wb_2015_2016_tidy.
  - reflexivity.
Defined.
